(** * scripts/make_confidence_report_spsa.py: a shallow embedding

    The script loads a pickled model, builds the dataset the model was
    trained on, runs two evaluation jobs (clean data and a MaxConfidence
    attack driven by SPSA) and stores the per-example results in a report
    dictionary.  Everything the script imports from the library is an
    opaque collaborator here: a field of [Library].  What the script itself
    does (string surgery on the path, the mutation of the factory's keyword
    arguments, float arithmetic on the dataset metadata, the dataset-family
    dispatch, the job loop, the final call) is written out.

    Python floats are IEEE binary64; they are the primitive floats of
    [PrimFloat].  Python dicts are [gmap]s.  Effects are threaded through a
    state-and-exception monad whose state is the list of calls made to the
    outside world. *)

From Stdlib Require Import Floats ZArith.
From stdpp Require Import gmap strings list.

Local Open Scope Z_scope.

(** Decimal float literals are read the way Python reads them: as the
    nearest binary64 value. *)
Set Warnings "-inexact-float".

(** ** Python strings *)

Module PyStr.

(** [s[:n]] for [0 <= n]. *)
Fixpoint take (n : nat) (s : string) : string :=
  match n, s with
  | S n', String c s' => String c (take n' s')
  | _, _ => EmptyString
  end.

(** [s[n:]] for [0 <= n]. *)
Fixpoint drop (n : nat) (s : string) : string :=
  match n, s with
  | S n', String _ s' => drop n' s'
  | _, _ => s
  end.

(** [s[:-k]] for a positive [k]: the stop index is [len(s) - k], clamped
    at [0], which is what truncated subtraction on [nat] computes. *)
Definition drop_last (k : nat) (s : string) : string :=
  take (String.length s - k)%nat s.

(** [s.endswith(suffix)] *)
Definition endswith (s suffix : string) : bool :=
  bool_decide (drop (String.length s - String.length suffix)%nat s = suffix).

(** [s.startswith(p)] *)
Fixpoint startswith (s p : string) : bool :=
  match p, s with
  | EmptyString, _ => true
  | String a p', String b s' => bool_decide (a = b) && startswith s' p'
  | String _ _, EmptyString => false
  end.

(** [sub in s]: [sub] occurs at some position of [s]. *)
Fixpoint contains (sub s : string) : bool :=
  startswith s sub ||
  match s with
  | EmptyString => false
  | String _ s' => contains sub s'
  end.

End PyStr.

(** ** Python values and exceptions *)

(** The values that occur as keyword arguments and attack parameters. *)
Inductive PyVal :=
| VNone
| VBool (b : bool)
| VInt (z : Z)
| VFloat (f : float)
| VStr (s : string).

Inductive exn :=
| AssertionError
| NotImplementedError (msg : string)
| ValueError (argv : list string)
| NameError (name : string)
| KeyError (key : string)
| TypeError
| OverflowError
| OtherError (msg : string).

Inductive outcome (A : Type) :=
| Ok (a : A)
| Raise (e : exn).
Arguments Ok {A} a.
Arguments Raise {A} e.

(** ** Python arithmetic on the numbers found in the metadata

    [center] is a [bool] and [max_val] a [float] in the library's dataset
    classes, but nothing in the script fixes that: the arithmetic below is
    Python's, for [bool], [int] and [float] operands. *)

Module PyNum.

(** [float(z)] for an [int]: correctly rounded, [OverflowError] when the
    result is not finite. *)
Definition float_of_Z (z : Z) : outcome float :=
  let f := SF2Prim (binary_normalize prec emax z 0 false) in
  if PrimFloat.is_infinity f then Raise OverflowError else Ok f.

(** The integer value of a [bool] or an [int]. *)
Definition as_int (v : PyVal) : option Z :=
  match v with
  | VBool b => Some (Z.b2z b)
  | VInt z => Some z
  | _ => None
  end.

(** The coercion a float operand applies to the other operand. *)
Definition to_float (v : PyVal) : outcome float :=
  match v with
  | VFloat f => Ok f
  | VBool b => Ok (if b then 1%float else 0%float)
  | VInt z => float_of_Z z
  | VNone | VStr _ => Raise TypeError
  end.

(** [a * b] on numbers: exact on two integers, binary64 otherwise. *)
Definition mul (a b : PyVal) : outcome PyVal :=
  match as_int a, as_int b with
  | Some x, Some y => Ok (VInt (x * y))
  | _, _ =>
      match to_float a with
      | Raise e => Raise e
      | Ok fa =>
          match to_float b with
          | Raise e => Raise e
          | Ok fb => Ok (VFloat (fa * fb)%float)
          end
      end
  end.

(** [-a] on numbers; a [bool] becomes an [int]. *)
Definition neg (a : PyVal) : outcome PyVal :=
  match a with
  | VFloat f => Ok (VFloat (- f)%float)
  | VBool b => Ok (VInt (- Z.b2z b))
  | VInt z => Ok (VInt (- z))
  | VNone | VStr _ => Raise TypeError
  end.

(** Two floats denote the same number: Python's [==], extended so that a
    NaN matches a NaN. *)
Definition same_number (x y : float) : bool :=
  PrimFloat.eqb x y || (PrimFloat.is_nan x && PrimFloat.is_nan y).

End PyNum.

(** ** The objects the library hands to the script *)

(** [model.dataset_factory]: a class and the keyword arguments it will be
    called with.  Of the class only [str(factory.cls)] is ever looked at. *)
Record Factory := {
  cls : string;
  kwargs : gmap string PyVal
}.

(** A loaded model: the list behind [model.get_params()] (variable names)
    and its dataset factory. *)
Record Model := {
  get_params : list string;
  dataset_factory : Factory
}.

Definition Example := list float.
Definition XData := list Example.
Definition YData := list Example.

(** A dataset: the keyword arguments it recorded when built, and
    [get_set(which_set)]. *)
Record Dataset := {
  ds_kwargs : gmap string PyVal;
  get_set : string -> outcome (XData * YData)
}.

(** [tf.Session()]: an opaque handle. *)
Inductive Session := TheSession.

Inductive Attack :=
| SPSA (model : Model) (sess : Session)
| MaxConfidence (model : Model) (sess : Session) (base_attacker : Attack).

(** One value of the report dictionary. *)
Record ReportEntry := {
  correctness : list bool;
  confidence : list float
}.

(** Everything imported from [cleverhans] and [time]: the default values
    of [cleverhans.confidence_report], the device list, and the calls.  A
    call of the library either returns or raises. *)
Record Library := {
  TRAIN_START : Z;
  TRAIN_END : Z;
  TEST_START : Z;
  TEST_END : Z;
  BATCH_SIZE : Z;
  WHICH_SET : string;
  NB_ITER : Z;
  REPORT_PATH : option string;
  devices : list string;
  load : string -> outcome Model;
  (** [factory()]: the class called on the keyword arguments *)
  construct : Factory -> outcome Dataset;
  correctness_and_confidence :
    Session -> Model -> XData -> YData -> Z -> list string ->
    option Attack -> option (gmap string PyVal) ->
    outcome (list bool * list float);
  (** the value of the [n]-th call of [time.time()] *)
  clock : nat -> float
}.

(** ** The outside world *)

(** The calls the script makes that leave a mark outside of it. *)
Inductive event :=
| EvSetRandomSeed (seed : Z)
| EvSetLogLevel (level : Z)
| EvSession
| EvLoad (filepath : string)
| EvConstruct (factory : Factory)
| EvGetSet (which_set : string)
| EvEvaluate (batch_size : Z) (attack : option Attack)
    (attack_params : option (gmap string PyVal))
| EvPrintElapsed (seconds : float)
| EvPrintStats (correctness : list bool) (confidence : list float)
    (name : string)
| EvSave (path : string) (report : gmap string ReportEntry).

Record World := {
  trace : list event;
  ticks : nat
}.

Definition new_world : World := {| trace := []; ticks := 0 |}.

(** ** The monad: state passing over [World], with exceptions *)

Definition M (A : Type) : Type := World -> World * outcome A.

Definition ret {A} (a : A) : M A := fun w => (w, Ok a).

Definition bind {A B} (m : M A) (k : A -> M B) : M B :=
  fun w =>
    match m w with
    | (w', Ok a) => k a w'
    | (w', Raise e) => (w', Raise e)
    end.

Definition raise {A} (e : exn) : M A := fun w => (w, Raise e).

Definition lift {A} (o : outcome A) : M A := fun w => (w, o).

Definition emit (e : event) : M unit :=
  fun w => ({| trace := trace w ++ [e]; ticks := ticks w |}, Ok tt).

(** [assert b] *)
Definition assert (b : bool) : M unit :=
  if b then ret tt else raise AssertionError.

(** stdpp's monad notations: [x ← m; k] and [m;; k]. *)
#[global] Instance M_ret : MRet M := @ret.
#[global] Instance M_bind : MBind M := fun A B k m => bind m k.

(** ** The module's global names

    The names bound at module level when a function body runs: the names
    every module has, the imports of lines 26 to 51, [FLAGS], and the two
    functions.  A name that is neither here nor a builtin raises
    [NameError] when it is looked up. *)
Definition module_globals : list string :=
  [ "__name__"; "__doc__"; "__file__"; "__package__"; "__builtins__";
    "__loader__"; "__spec__"; "__cached__";
    "absolute_import"; "division"; "print_function"; "unicode_literals";
    "logging"; "time"; "tf"; "flags";
    "MaxConfidence"; "SPSA"; "correctness_and_confidence"; "load";
    "set_log_level"; "silence"; "devices"; "print_stats";
    "make_confidence_report";
    "BATCH_SIZE"; "TRAIN_START"; "TRAIN_END"; "TEST_START"; "TEST_END";
    "WHICH_SET"; "NB_ITER"; "REPORT_PATH";
    "FLAGS"; "make_confidence_report_spsa"; "main" ].

(** The names of Python's [builtins] module, of Python 2 and of
    Python 3: functions and types, constants, exceptions and warnings. *)
Definition builtins : list string :=
  [ "abs"; "all"; "any"; "apply"; "ascii"; "basestring"; "bin"; "bool";
    "breakpoint"; "buffer"; "bytearray"; "bytes"; "callable"; "chr";
    "classmethod"; "cmp"; "coerce"; "compile"; "complex"; "delattr";
    "dict"; "dir"; "divmod"; "enumerate"; "eval"; "exec"; "execfile";
    "file"; "filter"; "float"; "format"; "frozenset"; "getattr";
    "globals"; "hasattr"; "hash"; "help"; "hex"; "id"; "input"; "int";
    "intern"; "isinstance"; "issubclass"; "iter"; "len"; "list";
    "locals"; "long"; "map"; "max"; "memoryview"; "min"; "next";
    "object"; "oct"; "open"; "ord"; "pow"; "print"; "property"; "range";
    "raw_input"; "reduce"; "reload"; "repr"; "reversed"; "round"; "set";
    "setattr"; "slice"; "sorted"; "staticmethod"; "str"; "sum"; "super";
    "tuple"; "type"; "unichr"; "unicode"; "vars"; "xrange"; "zip";
    "__import__"; "__debug__"; "__build_class__";
    "True"; "False"; "None"; "Ellipsis"; "NotImplemented";
    "copyright"; "credits"; "license"; "exit"; "quit";
    "BaseException"; "SystemExit"; "KeyboardInterrupt"; "GeneratorExit";
    "Exception"; "StandardError"; "StopIteration"; "StopAsyncIteration";
    "ArithmeticError"; "FloatingPointError"; "OverflowError";
    "ZeroDivisionError"; "AssertionError"; "AttributeError";
    "BufferError"; "EOFError"; "ImportError"; "ModuleNotFoundError";
    "LookupError"; "IndexError"; "KeyError"; "MemoryError"; "NameError";
    "UnboundLocalError"; "OSError"; "EnvironmentError"; "IOError";
    "WindowsError"; "BlockingIOError"; "ChildProcessError";
    "ConnectionError"; "BrokenPipeError"; "ConnectionAbortedError";
    "ConnectionRefusedError"; "ConnectionResetError"; "FileExistsError";
    "FileNotFoundError"; "InterruptedError"; "IsADirectoryError";
    "NotADirectoryError"; "PermissionError"; "ProcessLookupError";
    "TimeoutError"; "ReferenceError"; "RuntimeError";
    "NotImplementedError"; "RecursionError"; "SyntaxError";
    "IndentationError"; "TabError"; "SystemError"; "TypeError";
    "ValueError"; "UnicodeError"; "UnicodeDecodeError";
    "UnicodeEncodeError"; "UnicodeTranslateError";
    "Warning"; "DeprecationWarning"; "PendingDeprecationWarning";
    "RuntimeWarning"; "SyntaxWarning"; "UserWarning"; "FutureWarning";
    "ImportWarning"; "UnicodeWarning"; "BytesWarning"; "ResourceWarning" ].

Definition lookup_global (name : string) : M unit :=
  if bool_decide (name ∈ module_globals) || bool_decide (name ∈ builtins)
  then ret tt
  else raise (NameError name).

(** ** The script *)

(** [logging.INFO] *)
Definition logging_INFO : Z := 20.

(** Lines 91 to 93: the report path, when none was given. *)
Definition resolve_report_path (report_path : option string)
    (filepath : string) : M string :=
  match report_path with
  | None =>
      assert (PyStr.endswith filepath ".joblib");;
      mret (PyStr.drop_last (String.length ".joblib") filepath
            +:+ "_spsa_report.joblib")
  | Some p => mret p
  end.

(** [d[key]] on a dict. *)
Definition getitem (d : gmap string PyVal) (key : string) : M PyVal :=
  match d !! key with
  | Some v => mret v
  | None => raise (KeyError key)
  end.

(** Lines 98 to 102: the four stores into [factory.kwargs].  The factory is
    the model's own object, so the model sees them too. *)
Definition set_bounds (factory : Factory)
    (train_start train_end test_start test_end : Z) : Factory :=
  {| cls := cls factory;
     kwargs := <["test_end" := VInt test_end]>
                 (<["test_start" := VInt test_start]>
                    (<["train_end" := VInt train_end]>
                       (<["train_start" := VInt train_start]>
                          (kwargs factory)))) |}.

(** Line 107: [max_val * (1. + center)].  The sum is computed first. *)
Definition value_range_of (center max_val : PyVal) : outcome float :=
  match PyNum.to_float center with
  | Raise e => Raise e
  | Ok c =>
      let one_plus_center := (1 + c)%float in
      match PyNum.to_float max_val with
      | Raise e => Raise e
      | Ok m => Ok (m * one_plus_center)%float
      end
  end.

(** Line 108: [0. - center * max_val].  Line 107 has already rejected
    operands that are not numbers. *)
Definition min_value_of (center max_val : PyVal) : outcome float :=
  match PyNum.mul center max_val with
  | Raise e => Raise e
  | Ok p =>
      match PyNum.to_float p with
      | Raise e => Raise e
      | Ok f => Ok (0 - f)%float
      end
  end.

(** Lines 110 to 115: the dataset-family dispatch on [str(factory.cls)]. *)
Definition base_eps_of (cls_str : string) : outcome float :=
  if PyStr.contains "CIFAR" cls_str then Ok (8 / 255)%float
  else if PyStr.contains "MNIST" cls_str then Ok 0.3%float
  else Raise (NotImplementedError cls_str).

(** Lines 117 to 120: the dict literal. *)
Definition make_mc_params (base_eps value_range : float) (nb_iter : Z)
    (min_value : float) (max_val : PyVal) : gmap string PyVal :=
  <["clip_max" := max_val]>
    (<["clip_min" := VFloat min_value]>
       (<["nb_iter" := VInt nb_iter]>
          (<["eps" := VFloat (base_eps * value_range)%float]> ∅))).

(** [time.time()] *)
Definition time_time (lib : Library) : M float :=
  fun w => ({| trace := trace w; ticks := S (ticks w) |},
            Ok (clock lib (ticks w))).

Definition Job : Type :=
  string * option Attack * option (gmap string PyVal) * option Z.

(** Lines 134 to 151: the body of the loop. *)
Definition run_job (lib : Library) (sess : Session) (model : Model)
    (x_data : XData) (y_data : YData) (batch_size : Z)
    (report : gmap string ReportEntry) (job : Job)
    : M (gmap string ReportEntry) :=
  let '(name, attack, attack_params, job_batch_size) := job in
  let job_batch_size :=
    match job_batch_size with
    | None => batch_size
    | Some b => b
    end in
  t1 ← time_time lib;
  emit (EvEvaluate job_batch_size attack attack_params);;
  packed ← lift (correctness_and_confidence lib sess model x_data y_data
                   job_batch_size (devices lib) attack attack_params);
  t2 ← time_time lib;
  emit (EvPrintElapsed (t2 - t1)%float);;
  let '(correctness, confidence) := packed in
  let report :=
    <[name := {| correctness := correctness; confidence := confidence |}]>
      report in
  emit (EvPrintStats correctness confidence name);;
  mret report.

(** Line 133: [for job in jobs]. *)
Fixpoint run_jobs (lib : Library) (sess : Session) (model : Model)
    (x_data : XData) (y_data : YData) (batch_size : Z)
    (report : gmap string ReportEntry) (jobs : list Job)
    : M (gmap string ReportEntry) :=
  match jobs with
  | [] => mret report
  | job :: rest =>
      report ← run_job lib sess model x_data y_data batch_size report job;
      run_jobs lib sess model x_data y_data batch_size report rest
  end.

(** Line 154: [save(report_path, report)].  The callee is evaluated first,
    by a lookup of the global name. *)
Definition call_save (report_path : string)
    (report : gmap string ReportEntry) : M unit :=
  lookup_global "save";;
  emit (EvSave report_path report).

(** The local variables of [make_confidence_report_spsa] after line 108. *)
Record Measured := {
  m_sess : Session;
  m_report_path : string;
  m_model : Model;
  m_factory : Factory;
  m_dataset : Dataset;
  m_center : PyVal;
  m_max_val : PyVal;
  m_value_range : float;
  m_min_value : float
}.

(** Lines 82 to 108: session, report path, model, dataset, metadata. *)
Definition load_and_measure (lib : Library) (filepath : string)
    (train_start train_end test_start test_end : Z)
    (report_path : option string) : M Measured :=
  emit (EvSetRandomSeed 1234);;
  emit (EvSetLogLevel logging_INFO);;
  emit EvSession;;
  let sess := TheSession in
  report_path ← resolve_report_path report_path filepath;
  emit (EvLoad filepath);;
  model ← lift (load lib filepath);
  assert (bool_decide (0 < Z.of_nat (length (get_params model))));;
  let factory :=
    set_bounds (dataset_factory model)
      train_start train_end test_start test_end in
  let model :=
    {| get_params := get_params model; dataset_factory := factory |} in
  emit (EvConstruct factory);;
  dataset ← lift (construct lib factory);
  center ← getitem (ds_kwargs dataset) "center";
  max_val ← getitem (ds_kwargs dataset) "max_val";
  value_range ← lift (value_range_of center max_val);
  min_value ← lift (min_value_of center max_val);
  mret {| m_sess := sess; m_report_path := report_path; m_model := model;
          m_factory := factory; m_dataset := dataset;
          m_center := center; m_max_val := max_val;
          m_value_range := value_range; m_min_value := min_value |}.

(** The local variables when the loop starts (line 125). *)
Record Frame := {
  f_measured : Measured;
  f_base_eps : float;
  f_mc_params : gmap string PyVal;
  f_x_data : XData;
  f_y_data : YData
}.

(** Lines 110 to 123: dispatch, attack parameters, data. *)
Definition choose_attack (ms : Measured) (which_set : string) (nb_iter : Z)
    : M Frame :=
  base_eps ← lift (base_eps_of (cls (m_factory ms)));
  let mc_params :=
    make_mc_params base_eps (m_value_range ms) nb_iter
      (m_min_value ms) (m_max_val ms) in
  emit (EvGetSet which_set);;
  xy ← lift (get_set (m_dataset ms) which_set);
  mret {| f_measured := ms; f_base_eps := base_eps;
          f_mc_params := mc_params; f_x_data := xy.1; f_y_data := xy.2 |}.

(** Lines 82 to 123: everything that happens before the loop. *)
Definition setup (lib : Library) (filepath : string)
    (train_start train_end test_start test_end : Z)
    (which_set : string) (report_path : option string) (nb_iter : Z)
    : M Frame :=
  ms ← load_and_measure lib filepath train_start train_end
         test_start test_end report_path;
  choose_attack ms which_set nb_iter.

(** Lines 125 to 131: the empty report, the two attack objects and the
    job list. *)
Definition jobs_of (fr : Frame) : list Job :=
  let model := m_model (f_measured fr) in
  let sess := m_sess (f_measured fr) in
  let spsa := SPSA model sess in
  let mc := MaxConfidence model sess spsa in
  [ ("clean", None, None, None);
    ("mc", Some mc, Some (f_mc_params fr), None) ].

(** Lines 125 to 151: the report as it stands when the loop is over. *)
Definition build_report (lib : Library) (batch_size : Z) (fr : Frame)
    : M (gmap string ReportEntry) :=
  run_jobs lib (m_sess (f_measured fr)) (m_model (f_measured fr))
    (f_x_data fr) (f_y_data fr) batch_size ∅ (jobs_of fr).

Definition make_confidence_report_spsa (lib : Library) (filepath : string)
    (train_start train_end test_start test_end batch_size : Z)
    (which_set : string) (report_path : option string) (nb_iter : Z)
    : M unit :=
  fr ← setup lib filepath train_start train_end test_start test_end
         which_set report_path nb_iter;
  report ← build_report lib batch_size fr;
  call_save (m_report_path (f_measured fr)) report.

(** The command-line flags defined at the bottom of the script. *)
Record Flags := {
  flag_train_start : Z;
  flag_train_end : Z;
  flag_test_start : Z;
  flag_test_end : Z;
  flag_nb_iter : Z;
  flag_which_set : string;
  flag_report_path : option string;
  flag_batch_size : Z
}.

(** Lines 156 to 168.  [argv] is [None] when [main] is called without an
    argument; unpacking [None] is a [TypeError], which the [except] clause
    does not catch.  The call leaves [train_start] and [train_end] to the
    defaults of the signature. *)
Definition main (lib : Library) (FLAGS : Flags)
    (argv : option (list string)) : M unit :=
  match argv with
  | None => raise TypeError
  | Some [_name_of_script; filepath] =>
      make_confidence_report_spsa lib filepath
        (TRAIN_START lib) (TRAIN_END lib)
        (flag_test_start FLAGS) (flag_test_end FLAGS)
        (flag_batch_size FLAGS) (flag_which_set FLAGS)
        (flag_report_path FLAGS) (flag_nb_iter FLAGS)
  | Some argv => raise (ValueError argv)
  end.

(** ** A concrete library, to run the script on *)

Module Demo.

Definition mnist_factory : Factory :=
  {| cls := "<class 'cleverhans.dataset.MNIST'>";
     kwargs := <["center" := VBool false]>
                 (<["max_val" := VFloat 1]>
                    (<["train_start" := VInt 100]>
                       (<["train_end" := VInt 200]> ∅))) |}.

Definition cifar_factory : Factory :=
  {| cls := "<class 'cleverhans.dataset.CIFAR10'>";
     kwargs := <["center" := VBool true]>
                 (<["max_val" := VFloat 1]> ∅) |}.

Definition svhn_factory : Factory :=
  {| cls := "<class 'cleverhans.dataset.SVHN'>";
     kwargs := <["center" := VBool false]>
                 (<["max_val" := VFloat 255]> ∅) |}.

Definition the_load (filepath : string) : outcome Model :=
  if bool_decide (filepath = "cifar.joblib") then
    Ok {| get_params := ["conv1/kernel"]; dataset_factory := cifar_factory |}
  else if bool_decide (filepath = "svhn.joblib") then
    Ok {| get_params := ["conv1/kernel"]; dataset_factory := svhn_factory |}
  else if PyStr.endswith filepath ".joblib" then
    Ok {| get_params := ["logits/kernel"; "logits/bias"];
          dataset_factory := mnist_factory |}
  else Raise (OtherError "not a joblib file").

Definition the_get_set (which_set : string) : outcome (XData * YData) :=
  if bool_decide (which_set = "train") then
    Ok ([[0]; [1]]%float, [[1; 0]; [0; 1]]%float)
  else if bool_decide (which_set = "test") then
    Ok ([[0]; [1]; [0.5]]%float, [[1; 0]; [0; 1]; [1; 0]]%float)
  else Raise (OtherError "no such set").

Definition the_construct (factory : Factory) : outcome Dataset :=
  Ok {| ds_kwargs := kwargs factory; get_set := the_get_set |}.

Definition the_evaluation (sess : Session) (model : Model)
    (x : XData) (y : YData) (batch_size : Z) (devs : list string)
    (attack : option Attack) (params : option (gmap string PyVal))
    : outcome (list bool * list float) :=
  match attack with
  | None => Ok ((fun _ => true) <$> x, (fun _ => 0.75%float) <$> x)
  | Some _ => Ok ((fun _ => false) <$> x, (fun _ => 0.5%float) <$> x)
  end.

Definition lib : Library :=
  {| TRAIN_START := 0; TRAIN_END := 60000;
     TEST_START := 0; TEST_END := 10000;
     BATCH_SIZE := 128; WHICH_SET := "test"; NB_ITER := 40;
     REPORT_PATH := None;
     devices := ["/gpu:0"];
     load := the_load;
     construct := the_construct;
     correctness_and_confidence := the_evaluation;
     clock := fun n => if Nat.even n then 10%float else 12.5%float |}.

Definition flags : Flags :=
  {| flag_train_start := 5; flag_train_end := 50;
     flag_test_start := 0; flag_test_end := 3;
     flag_nb_iter := 40; flag_which_set := "test";
     flag_report_path := None; flag_batch_size := 128 |}.

End Demo.

(** ** The spec's side of the comparisons *)

(** The spec's words for the lower clip bound: [-center * max_val], read
    as a float. *)
Definition spec_min_value (center max_val : PyVal) : outcome float :=
  match PyNum.neg center with
  | Raise e => Raise e
  | Ok n =>
      match PyNum.mul n max_val with
      | Raise e => Raise e
      | Ok p => PyNum.to_float p
      end
  end.

(** Modelled from the spec: [correctness_and_confidence] lives in
    [cleverhans.evaluation], which is not part of the script.  The spec's
    data model says of its two arrays that their lengths match each other
    and the number of input examples. *)
Definition evaluation_contract (lib : Library) : Prop :=
  ∀ sess model (x : XData) (y : YData) batch_size devs attack params
    correct conf,
    correctness_and_confidence lib sess model x y batch_size devs
      attack params = Ok (correct, conf) →
    length correct = length x ∧ length conf = length x.

(** ** The shape of a run up to line 108 *)

(** What the calls made up to line 108 add to the trace. *)
Definition measure_events (filepath : string) (factory : Factory)
    : list event :=
  [ EvSetRandomSeed 1234; EvSetLogLevel logging_INFO; EvSession;
    EvLoad filepath; EvConstruct factory ].

(** The facts behind a run of [load_and_measure] that loaded [model] and
    returned [ms]. *)
Record measured_from (lib : Library) (filepath : string)
    (train_start train_end test_start test_end : Z)
    (report_path : option string) (model : Model) (ms : Measured)
    : Prop := {
  mf_path : ∀ w, resolve_report_path report_path filepath w
                 = (w, Ok (m_report_path ms));
  mf_load : load lib filepath = Ok model;
  mf_params : get_params model ≠ [];
  mf_factory : m_factory ms
               = set_bounds (dataset_factory model)
                   train_start train_end test_start test_end;
  mf_alias : m_model ms
             = {| get_params := get_params model;
                  dataset_factory := m_factory ms |};
  mf_construct : construct lib (m_factory ms) = Ok (m_dataset ms);
  mf_center : ds_kwargs (m_dataset ms) !! "center" = Some (m_center ms);
  mf_max_val : ds_kwargs (m_dataset ms) !! "max_val" = Some (m_max_val ms);
  mf_value_range : value_range_of (m_center ms) (m_max_val ms)
                   = Ok (m_value_range ms);
  mf_min_value : min_value_of (m_center ms) (m_max_val ms)
                 = Ok (m_min_value ms)
}.

(** The keys lines 99 to 102 store into. *)
Definition bound_keys : list string :=
  [ "train_start"; "train_end"; "test_start"; "test_end" ].

(** The flags [FLAGS] with other values for [train_start] and
    [train_end]. *)
Definition with_train_flags (FLAGS : Flags) (train_start train_end : Z)
    : Flags :=
  {| flag_train_start := train_start;
     flag_train_end := train_end;
     flag_test_start := flag_test_start FLAGS;
     flag_test_end := flag_test_end FLAGS;
     flag_nb_iter := flag_nb_iter FLAGS;
     flag_which_set := flag_which_set FLAGS;
     flag_report_path := flag_report_path FLAGS;
     flag_batch_size := flag_batch_size FLAGS |}.

(** What one pass through the loop body adds to the trace. *)
Definition job_events (batch_size : Z) (attack : option Attack)
    (attack_params : option (gmap string PyVal)) (elapsed : float)
    (name : string) (entry : ReportEntry) : list event :=
  [ EvEvaluate batch_size attack attack_params;
    EvPrintElapsed elapsed;
    EvPrintStats (correctness entry) (confidence entry) name ].

(** The events that write a report. *)
Definition is_save (e : event) : bool :=
  match e with
  | EvSave _ _ => true
  | _ => false
  end.

(** ** More vocabulary for the statements *)

(** Lines 91 and 92: whether the pair of a [report_path] and a [filepath]
    gets past the assertion. *)
Definition accepts_path (report_path : option string) (filepath : string)
    : bool :=
  match report_path with
  | Some _ => true
  | None => PyStr.endswith filepath ".joblib"
  end.

(** [w'] is [w] after some more calls, none of which writes a report. *)
Definition grows_without_save (w w' : World) : Prop :=
  ∃ evs, trace w' = trace w ++ evs ∧
         Forall (fun e => is_save e = false) evs.

(** A computation that only ever adds such calls. *)
Definition quiet {A} (m : M A) : Prop :=
  ∀ w, grows_without_save w (m w).1.

(** A computation that raises on every run. *)
Definition never_returns {A} (m : M A) : Prop :=
  ∀ w, ∃ e, (m w).2 = Raise e.


(** The exceptions [make_confidence_report_spsa] raises by itself: the two
    assertions, the two subscripts, the arithmetic of lines 107 and 108,
    the dispatch, and the call of line 154. *)
Definition own_exception (e : exn) : Prop :=
  e = AssertionError ∨ e = KeyError "center" ∨ e = KeyError "max_val" ∨
  e = TypeError ∨ e = OverflowError ∨
  (∃ cls_str, e = NotImplementedError cls_str) ∨
  e = NameError "save".

(** The exceptions some call of the library raises. *)
Definition library_exception (lib : Library) (e : exn) : Prop :=
  (∃ filepath, load lib filepath = Raise e) ∨
  (∃ factory, construct lib factory = Raise e) ∨
  (∃ factory dataset which_set,
     construct lib factory = Ok dataset ∧
     get_set dataset which_set = Raise e) ∨
  (∃ sess model x y batch_size attack params,
     correctness_and_confidence lib sess model x y batch_size
       (devices lib) attack params = Raise e).

(** [bool], [int] and [float] values. *)
Definition is_number (v : PyVal) : bool :=
  match v with
  | VBool _ | VInt _ | VFloat _ => true
  | VNone | VStr _ => false
  end.

(** What the calls made before [load] returns add to the trace. *)
Definition load_events (filepath : string) : list event :=
  [ EvSetRandomSeed 1234; EvSetLogLevel logging_INFO; EvSession;
    EvLoad filepath ].

(** ** A second library, with models that go wrong *)

Module Faulty.

Definition factory_of (kw : gmap string PyVal) : Factory :=
  {| cls := "<class 'cleverhans.dataset.MNIST'>"; kwargs := kw |}.

Definition model_of (name : string) (kw : gmap string PyVal) : Model :=
  {| get_params := [name]; dataset_factory := factory_of kw |}.

Definition good_kwargs : gmap string PyVal :=
  <["center" := VBool false]> (<["max_val" := VFloat 1]> ∅).

Definition the_load (filepath : string) : outcome Model :=
  if bool_decide (filepath = "missing.joblib") then
    Raise (OtherError "No such file or directory")
  else if bool_decide (filepath = "corrupt.joblib") then
    Ok (model_of "w" (<["corrupt" := VBool true]> good_kwargs))
  else if bool_decide (filepath = "empty.joblib") then
    Ok {| get_params := []; dataset_factory := factory_of good_kwargs |}
  else if bool_decide (filepath = "no_center.joblib") then
    Ok (model_of "w" (<["max_val" := VFloat 1]> ∅))
  else if bool_decide (filepath = "no_max_val.joblib") then
    Ok (model_of "w" (<["center" := VBool false]> ∅))
  else if bool_decide (filepath = "bad_center.joblib") then
    Ok (model_of "w" (<["center" := VStr "yes"]> good_kwargs))
  else if bool_decide (filepath = "clean_fails.joblib") then
    Ok (model_of "clean_fails" good_kwargs)
  else if bool_decide (filepath = "mc_fails.joblib") then
    Ok (model_of "mc_fails" good_kwargs)
  else Ok (model_of "w" good_kwargs).

Definition the_construct (factory : Factory) : outcome Dataset :=
  match kwargs factory !! "corrupt" with
  | Some _ => Raise (OtherError "cannot read the data files")
  | None => Demo.the_construct factory
  end.

Definition the_evaluation (sess : Session) (model : Model)
    (x : XData) (y : YData) (batch_size : Z) (devs : list string)
    (attack : option Attack) (params : option (gmap string PyVal))
    : outcome (list bool * list float) :=
  match attack with
  | None =>
      if bool_decide (get_params model = ["clean_fails"])
      then Raise (OtherError "out of memory")
      else Ok ((fun _ => true) <$> x, (fun _ => 0.75%float) <$> x)
  | Some _ =>
      if bool_decide (get_params model = ["mc_fails"])
      then Raise (OtherError "out of memory")
      else Ok ((fun _ => false) <$> x, (fun _ => 0.5%float) <$> x)
  end.

Definition lib : Library :=
  {| TRAIN_START := 0; TRAIN_END := 60000;
     TEST_START := 0; TEST_END := 10000;
     BATCH_SIZE := 128; WHICH_SET := "test"; NB_ITER := 40;
     REPORT_PATH := None;
     devices := ["/gpu:0"];
     load := the_load;
     construct := the_construct;
     correctness_and_confidence := the_evaluation;
     clock := fun n => if Nat.even n then 10%float else 12.5%float |}.

End Faulty.

(** * Properties *)

(** ** Strings *)

Module PyStrFacts.
Import PyStr.

Lemma length_app (a b : string) :
  String.length (a +:+ b) = (String.length a + String.length b)%nat.
Proof. induction a as [|c a IH]; simpl; [done | by rewrite IH]. Qed.

Lemma take_app (a b : string) : take (String.length a) (a +:+ b) = a.
Proof. induction a as [|c a IH]; simpl; [by destruct b | by rewrite IH]. Qed.

Lemma drop_app (a b : string) : drop (String.length a) (a +:+ b) = b.
Proof. induction a as [|c a IH]; simpl; done. Qed.

Lemma take_drop (n : nat) (s : string) : take n s +:+ drop n s = s.
Proof.
  revert s; induction n as [|n IH]; intros [|c s]; simpl; try done.
  change (String c (take n s +:+ drop n s) = String c s). by rewrite IH.
Qed.

Lemma drop_last_app (a b : string) :
  drop_last (String.length b) (a +:+ b) = a.
Proof.
  unfold drop_last. rewrite length_app.
  replace (String.length a + String.length b - String.length b)%nat
    with (String.length a) by lia.
  apply take_app.
Qed.

Lemma endswith_app (a b : string) : endswith (a +:+ b) b = true.
Proof.
  unfold endswith. apply bool_decide_eq_true.
  rewrite length_app.
  replace (String.length a + String.length b - String.length b)%nat
    with (String.length a) by lia.
  apply drop_app.
Qed.

(** A string that ends with [b] is its own [s[:-len(b)]] followed by
    [b]. *)
Lemma endswith_split (s b : string) :
  endswith s b = true → s = drop_last (String.length b) s +:+ b.
Proof.
  unfold endswith, drop_last. intros H%bool_decide_eq_true.
  remember (String.length s - String.length b)%nat as n eqn:Hn.
  clear Hn. subst b. symmetry. apply take_drop.
Qed.

Lemma startswith_app (p b : string) : startswith (p +:+ b) p = true.
Proof.
  induction p as [|c p IH]; simpl; [by destruct b |].
  by rewrite bool_decide_eq_true_2.
Qed.

Lemma startswith_split (s p : string) :
  startswith s p = true → ∃ b, s = p +:+ b.
Proof.
  revert s; induction p as [|c p IH]; intros s H.
  - by exists s.
  - destruct s as [|d s]; simpl in H; [done |].
    apply andb_true_iff in H as [->%bool_decide_eq_true H].
    destruct (IH _ H) as [b ->]. by exists b.
Qed.

(** [sub in s] holds exactly when [s] is [a + sub + b] for some [a],
    [b]. *)
Lemma contains_spec (sub s : string) :
  contains sub s = true ↔ ∃ a b, s = a +:+ sub +:+ b.
Proof.
  split.
  - induction s as [|c s IH]; simpl; rewrite orb_true_iff.
    + intros [H | H]; [| done].
      destruct sub; [| done]. by exists "", "".
    + intros [H | H].
      * apply (startswith_split (String c s)) in H as [b ->].
        by exists "", b.
      * destruct (IH H) as (a & b & ->). by exists (String c a), b.
  - intros (a & b & ->). induction a as [|c a IH].
    + change ("" +:+ sub +:+ b) with (sub +:+ b).
      assert (Hs := startswith_app sub b).
      destruct (sub +:+ b); cbn [contains]; by rewrite Hs.
    + change (String c a +:+ sub +:+ b) with (String c (a +:+ sub +:+ b)).
      cbn [contains]. rewrite IH. apply orb_true_r.
Qed.

End PyStrFacts.

(** ** The monad *)

Section MonadFacts.
Context {A B : Type}.
Implicit Types (m : M A) (k : A → M B) (w : World).

Lemma bind_ok m k w w1 a : m w = (w1, Ok a) → (m ≫= k) w = k a w1.
Proof. unfold mbind, M_bind, bind. by intros ->. Qed.

Lemma bind_raise m k w w1 e :
  m w = (w1, Raise e) → (m ≫= k) w = (w1, Raise e).
Proof. unfold mbind, M_bind, bind. by intros ->. Qed.

Lemma bind_ok_inv m k w w' b :
  (m ≫= k) w = (w', Ok b) →
  ∃ w1 a, m w = (w1, Ok a) ∧ k a w1 = (w', Ok b).
Proof.
  unfold mbind, M_bind, bind.
  destruct (m w) as [w1 [a | e]]; [by exists w1, a | done].
Qed.
End MonadFacts.

Lemma emit_run (e : event) (w : World) :
  emit e w = ({| trace := trace w ++ [e]; ticks := ticks w |}, Ok tt).
Proof. done. Qed.

(** One step of a run: an [emit], which always returns. *)
Tactic Notation "step_emit" :=
  erewrite bind_ok; [| apply emit_run].
Tactic Notation "step_emit" "in" hyp(H) :=
  erewrite bind_ok in H; [| apply emit_run].

Lemma lift_run {A} (o : outcome A) (w : World) : lift o w = (w, o).
Proof. done. Qed.

Lemma lift_ok_inv {A} (o : outcome A) (w w' : World) (a : A) :
  lift o w = (w', Ok a) → w' = w ∧ o = Ok a.
Proof. unfold lift. by intros [= -> ->]. Qed.

Lemma assert_ok_inv (b : bool) (w w' : World) (u : unit) :
  assert b w = (w', Ok u) → w' = w ∧ b = true.
Proof. destruct b; [by intros [= ->] | done]. Qed.

Lemma getitem_ok_inv (d : gmap string PyVal) (key : string)
    (w w' : World) (v : PyVal) :
  getitem d key w = (w', Ok v) → w' = w ∧ d !! key = Some v.
Proof. unfold getitem. destruct (d !! key); [by intros [= -> ->] | done]. Qed.

(** ** The report path (lines 91 to 93) *)

Lemma resolve_report_path_default (filepath : string) (w : World) :
  resolve_report_path None filepath w =
    if PyStr.endswith filepath ".joblib"
    then (w, Ok (PyStr.drop_last 7 filepath +:+ "_spsa_report.joblib"))
    else (w, Raise AssertionError).
Proof.
  unfold resolve_report_path. by destruct (PyStr.endswith filepath ".joblib").
Qed.

Lemma resolve_report_path_override (p filepath : string) (w : World) :
  resolve_report_path (Some p) filepath w = (w, Ok p).
Proof. done. Qed.

(** Resolving the path leaves the world alone. *)
Lemma resolve_report_path_pure rp filepath w w' r :
  resolve_report_path rp filepath w = (w', r) → w' = w.
Proof.
  destruct rp as [p|].
  - by intros [= <- _].
  - rewrite resolve_report_path_default.
    destruct (PyStr.endswith filepath ".joblib"); by intros [= <- _].
Qed.

(** C5: with [report_path] left to [None], a model path [stem.joblib]
    resolves to the report path [stem_spsa_report.joblib]: the trailing
    [.joblib] is replaced by [_spsa_report.joblib]. *)
Theorem C5_default_report_path (stem : string) (w : World) :
  resolve_report_path None (stem +:+ ".joblib") w =
    (w, Ok (stem +:+ "_spsa_report.joblib")).
Proof.
  rewrite resolve_report_path_default.
  rewrite PyStrFacts.endswith_app.
  change 7%nat with (String.length ".joblib").
  by rewrite PyStrFacts.drop_last_app.
Qed.

(** C8: called with [report_path] equal to [None] and a [filepath] that
    does not end in [.joblib], the function stops on the assertion of line
    92: the path is not derived, and the only calls made so far are the
    seed, the log level and the session; [load] has not been called. *)
Theorem C8_assertion_before_load (lib : Library) (filepath : string)
    (train_start train_end test_start test_end batch_size : Z)
    (which_set : string) (nb_iter : Z) (w : World) :
  PyStr.endswith filepath ".joblib" = false →
  resolve_report_path None filepath w = (w, Raise AssertionError) ∧
  make_confidence_report_spsa lib filepath train_start train_end
    test_start test_end batch_size which_set None nb_iter w =
    ({| trace := trace w ++ [EvSetRandomSeed 1234;
                             EvSetLogLevel logging_INFO;
                             EvSession];
        ticks := ticks w |},
     Raise AssertionError).
Proof.
  intros Hext. split.
  - by rewrite resolve_report_path_default, Hext.
  - unfold make_confidence_report_spsa, setup, load_and_measure.
    do 2 (erewrite bind_raise; [reflexivity |]).
    do 3 step_emit.
    erewrite bind_raise; [| by rewrite resolve_report_path_default, Hext].
    simpl. by rewrite <- !app_assoc.
Qed.

Lemma C8_witness :
  PyStr.endswith "model.pkl" ".joblib" = false ∧
  make_confidence_report_spsa Demo.lib "model.pkl" 0 60000 0 10000 128
    "test" None 40 new_world =
    ({| trace := [EvSetRandomSeed 1234; EvSetLogLevel logging_INFO;
                  EvSession];
        ticks := 0 |},
     Raise AssertionError).
Proof.
  split; [reflexivity |].
  exact (proj2 (C8_assertion_before_load Demo.lib "model.pkl"
                  0 60000 0 10000 128 "test" 40 new_world eq_refl)).
Defined.

(** ** Lines 82 to 108 *)

Lemma load_and_measure_ok_inv lib filepath train_start train_end
    test_start test_end report_path w w1 ms :
  load_and_measure lib filepath train_start train_end test_start test_end
    report_path w = (w1, Ok ms) →
  ∃ model,
    measured_from lib filepath train_start train_end test_start test_end
      report_path model ms ∧
    w1 = {| trace := trace w ++ measure_events filepath (m_factory ms);
            ticks := ticks w |}.
Proof.
  unfold load_and_measure. intros H.
  do 3 (step_emit in H).
  apply bind_ok_inv in H as (wa & path & Hpath & H).
  pose proof (resolve_report_path_pure _ _ _ _ _ Hpath) as ->.
  step_emit in H.
  apply bind_ok_inv in H as (wb & model & [-> Hload]%lift_ok_inv & H).
  apply bind_ok_inv in H as (wc & [] & [-> Hpar]%assert_ok_inv & H).
  step_emit in H.
  apply bind_ok_inv in H as (wd & dataset & [-> Hcons]%lift_ok_inv & H).
  apply bind_ok_inv in H as (we & center & [-> Hc]%getitem_ok_inv & H).
  apply bind_ok_inv in H as (wf & max_val & [-> Hm]%getitem_ok_inv & H).
  apply bind_ok_inv in H as (wg & vr & [-> Hvr]%lift_ok_inv & H).
  apply bind_ok_inv in H as (wh & mv & [-> Hmv]%lift_ok_inv & H).
  injection H as <- <-. exists model. split.
  - split; simpl; try done.
    + intros w0. destruct report_path as [p|].
      * by injection Hpath as ->.
      * rewrite resolve_report_path_default in Hpath |- *.
        destruct (PyStr.endswith filepath ".joblib"); [| done].
        by injection Hpath as ->.
    + apply bool_decide_eq_true in Hpar.
      destruct (get_params model); [simpl in Hpar; lia | done].
  - simpl. unfold measure_events. by rewrite <- !app_assoc.
Qed.

(** Conversely, these facts make the run return. *)
Lemma load_and_measure_ok lib filepath train_start train_end
    test_start test_end report_path model ms w :
  measured_from lib filepath train_start train_end test_start test_end
    report_path model ms →
  m_sess ms = TheSession →
  load_and_measure lib filepath train_start train_end test_start test_end
    report_path w =
    ({| trace := trace w ++ measure_events filepath (m_factory ms);
        ticks := ticks w |}, Ok ms).
Proof.
  intros [Hpath Hload Hpar Hfac Halias Hcons Hc Hm Hvr Hmv] Hsess.
  unfold load_and_measure.
  do 3 step_emit.
  erewrite bind_ok; [| apply Hpath].
  step_emit.
  erewrite bind_ok; [| by rewrite lift_run, Hload].
  erewrite bind_ok; cycle 1.
  { rewrite bool_decide_eq_true_2; [reflexivity |].
    destruct (get_params model); [done | simpl; lia]. }
  rewrite <- Hfac.
  step_emit.
  erewrite bind_ok; [| by rewrite lift_run, Hcons].
  unfold getitem. rewrite Hc, Hm.
  erewrite bind_ok; [| reflexivity].
  erewrite bind_ok; [| reflexivity].
  erewrite bind_ok; [| by rewrite lift_run, Hvr].
  erewrite bind_ok; [| by rewrite lift_run, Hmv].
  unfold mret, M_ret, ret, measure_events. simpl.
  rewrite <- !app_assoc. simpl.
  destruct ms; simpl in *. by subst.
Qed.

(** ** The factory's keyword arguments (lines 98 to 103) *)

Lemma set_bounds_bound (factory : Factory)
    (train_start train_end test_start test_end : Z) :
  let after := kwargs (set_bounds factory train_start train_end
                         test_start test_end) in
  after !! "train_start" = Some (VInt train_start) ∧
  after !! "train_end" = Some (VInt train_end) ∧
  after !! "test_start" = Some (VInt test_start) ∧
  after !! "test_end" = Some (VInt test_end).
Proof.
  simpl. repeat split.
  - do 3 (rewrite lookup_insert_ne; [| done]). apply lookup_insert_eq.
  - do 2 (rewrite lookup_insert_ne; [| done]). apply lookup_insert_eq.
  - rewrite lookup_insert_ne; [| done]. apply lookup_insert_eq.
  - apply lookup_insert_eq.
Qed.

Lemma set_bounds_frame (factory : Factory)
    (train_start train_end test_start test_end : Z) (key : string) :
  key ∉ bound_keys →
  kwargs (set_bounds factory train_start train_end test_start test_end)
    !! key = kwargs factory !! key.
Proof.
  unfold bound_keys. intros Hk. simpl.
  rewrite !lookup_insert_ne; [done | ..]; intros <-; apply Hk; set_solver.
Qed.

(** C10: the factory the dataset is constructed from is the loaded model's
    factory with [train_start], [train_end], [test_start] and [test_end]
    set to the given bounds; every other keyword argument, and the class,
    are those of the loaded model.  The stores come first: the call of the
    factory is the last event of the trace and carries the updated
    factory, which is also the one the model now holds. *)
Theorem C10_only_the_bounds_are_overwritten (lib : Library)
    (filepath : string) (train_start train_end test_start test_end : Z)
    (report_path : option string) (w w1 : World) (ms : Measured) :
  load_and_measure lib filepath train_start train_end test_start test_end
    report_path w = (w1, Ok ms) →
  ∃ model,
    load lib filepath = Ok model ∧
    kwargs (m_factory ms) !! "train_start" = Some (VInt train_start) ∧
    kwargs (m_factory ms) !! "train_end" = Some (VInt train_end) ∧
    kwargs (m_factory ms) !! "test_start" = Some (VInt test_start) ∧
    kwargs (m_factory ms) !! "test_end" = Some (VInt test_end) ∧
    (∀ key, key ∉ bound_keys →
       kwargs (m_factory ms) !! key
       = kwargs (dataset_factory model) !! key) ∧
    cls (m_factory ms) = cls (dataset_factory model) ∧
    dataset_factory (m_model ms) = m_factory ms ∧
    construct lib (m_factory ms) = Ok (m_dataset ms) ∧
    last (trace w1) = Some (EvConstruct (m_factory ms)).
Proof.
  intros H. apply load_and_measure_ok_inv in H as (model & Hms & ->).
  destruct Hms as [_ Hload _ Hfac Halias Hcons _ _ _ _].
  exists model. rewrite Halias, Hfac.
  destruct (set_bounds_bound (dataset_factory model)
              train_start train_end test_start test_end)
    as (H1 & H2 & H3 & H4).
  repeat split; try done.
  - intros key Hk. by apply set_bounds_frame.
  - by rewrite <- Hfac.
  - simpl. by rewrite last_app.
Qed.

Lemma C10_witness :
  ∃ w1 ms,
    load_and_measure Demo.lib "model.joblib" 10 20 30 40 None new_world
      = (w1, Ok ms) ∧
    kwargs (m_factory ms) !! "train_start" = Some (VInt 10) ∧
    kwargs (m_factory ms) !! "test_end" = Some (VInt 40) ∧
    kwargs (m_factory ms) !! "max_val"
      = kwargs Demo.mnist_factory !! "max_val".
Proof.
  destruct (load_and_measure Demo.lib "model.joblib" 10 20 30 40 None
              new_world) as [w1 [ms | e]] eqn:Hrun;
    [| vm_compute in Hrun; discriminate].
  exists w1, ms. split; [reflexivity |].
  destruct (C10_only_the_bounds_are_overwritten _ _ _ _ _ _ _ _ _ _ Hrun)
    as (model & Hload & Hts & _ & _ & Hte & Hframe & _).
  split; [exact Hts |]. split; [exact Hte |].
  rewrite Hframe.
  - vm_compute in Hload. by injection Hload as <-.
  - apply (bool_decide_unpack _). reflexivity.
Defined.

(** ** Dispatch and attack parameters (lines 110 to 123) *)

Lemma make_mc_params_lookup (base_eps value_range : float) (nb_iter : Z)
    (min_value : float) (max_val : PyVal) :
  let params :=
    make_mc_params base_eps value_range nb_iter min_value max_val in
  params !! "eps" = Some (VFloat (base_eps * value_range)%float) ∧
  params !! "nb_iter" = Some (VInt nb_iter) ∧
  params !! "clip_min" = Some (VFloat min_value) ∧
  params !! "clip_max" = Some max_val.
Proof.
  unfold make_mc_params. split_and!.
  - do 3 (rewrite lookup_insert_ne; [| done]). apply lookup_insert_eq.
  - do 2 (rewrite lookup_insert_ne; [| done]). apply lookup_insert_eq.
  - rewrite lookup_insert_ne; [| done]. apply lookup_insert_eq.
  - apply lookup_insert_eq.
Qed.

Lemma choose_attack_ok_inv ms which_set nb_iter w w2 fr :
  choose_attack ms which_set nb_iter w = (w2, Ok fr) →
  ∃ base_eps xy,
    base_eps_of (cls (m_factory ms)) = Ok base_eps ∧
    get_set (m_dataset ms) which_set = Ok xy ∧
    fr = {| f_measured := ms; f_base_eps := base_eps;
            f_mc_params :=
              make_mc_params base_eps (m_value_range ms) nb_iter
                (m_min_value ms) (m_max_val ms);
            f_x_data := xy.1; f_y_data := xy.2 |} ∧
    w2 = {| trace := trace w ++ [EvGetSet which_set]; ticks := ticks w |}.
Proof.
  unfold choose_attack. intros H.
  apply bind_ok_inv in H as (wa & base & [-> Hbase]%lift_ok_inv & H).
  step_emit in H.
  apply bind_ok_inv in H as (wb & xy & [-> Hxy]%lift_ok_inv & H).
  injection H as <- <-. by exists base, xy.
Qed.

Lemma choose_attack_ok ms which_set nb_iter w base_eps xy :
  base_eps_of (cls (m_factory ms)) = Ok base_eps →
  get_set (m_dataset ms) which_set = Ok xy →
  choose_attack ms which_set nb_iter w =
    ({| trace := trace w ++ [EvGetSet which_set]; ticks := ticks w |},
     Ok {| f_measured := ms; f_base_eps := base_eps;
           f_mc_params :=
             make_mc_params base_eps (m_value_range ms) nb_iter
               (m_min_value ms) (m_max_val ms);
           f_x_data := xy.1; f_y_data := xy.2 |}).
Proof.
  intros Hbase Hxy. unfold choose_attack.
  erewrite bind_ok; [| by rewrite lift_run, Hbase].
  step_emit.
  erewrite bind_ok; [| by rewrite lift_run, Hxy].
  done.
Qed.

Lemma setup_ok_inv lib filepath train_start train_end test_start test_end
    which_set report_path nb_iter w w2 fr :
  setup lib filepath train_start train_end test_start test_end
    which_set report_path nb_iter w = (w2, Ok fr) →
  ∃ w1,
    load_and_measure lib filepath train_start train_end test_start test_end
      report_path w = (w1, Ok (f_measured fr)) ∧
    choose_attack (f_measured fr) which_set nb_iter w1 = (w2, Ok fr).
Proof.
  unfold setup. intros H.
  apply bind_ok_inv in H as (w1 & ms & Hms & H).
  destruct (choose_attack_ok_inv _ _ _ _ _ _ H) as (b & xy & _ & _ & -> & _).
  by exists w1.
Qed.

(** The two budgets are different floats. *)
Lemma cifar_budget_is_not_mnist_budget : (8 / 255)%float ≠ 0.3%float.
Proof.
  intros H. apply (f_equal (fun x => PrimFloat.eqb x 0.3)) in H.
  vm_compute in H. discriminate.
Qed.

(** C3: once the dataset is built and measured, the family decides.  For
    a class name containing [CIFAR] every frame handed to the loop has
    [eps] equal to [8/255 * value_range]; for one containing [MNIST] and
    not [CIFAR] it is [0.3 * value_range]; for any other class name the
    function raises [NotImplementedError], carrying the class name. *)
Theorem C3_epsilon_by_family (lib : Library) (filepath : string)
    (train_start train_end test_start test_end batch_size : Z)
    (which_set : string) (report_path : option string) (nb_iter : Z)
    (w w1 : World) (ms : Measured) :
  load_and_measure lib filepath train_start train_end test_start test_end
    report_path w = (w1, Ok ms) →
  let family := cls (m_factory ms) in
  let eps_is (base : float) :=
    ∀ w2 fr,
      setup lib filepath train_start train_end test_start test_end
        which_set report_path nb_iter w = (w2, Ok fr) →
      f_mc_params fr !! "eps"
      = Some (VFloat (base * m_value_range ms)%float) in
  if PyStr.contains "CIFAR" family then eps_is (8 / 255)%float
  else if PyStr.contains "MNIST" family then eps_is 0.3%float
  else
    make_confidence_report_spsa lib filepath train_start train_end
      test_start test_end batch_size which_set report_path nb_iter w
    = (w1, Raise (NotImplementedError family)).
Proof.
  intros Hms family eps_is.
  assert (Heps : ∀ base, base_eps_of family = Ok base → eps_is base).
  { intros base Hbase w2 fr Hfr.
    apply setup_ok_inv in Hfr as (w1' & Hms' & Hfr).
    rewrite Hms in Hms'. injection Hms' as <- Hms'.
    apply choose_attack_ok_inv in Hfr as (b & xy & Hb & _ & -> & _).
    rewrite <- Hms' in Hb. fold family in Hb.
    rewrite Hbase in Hb. injection Hb as <-. simpl. rewrite <- Hms'.
    apply make_mc_params_lookup. }
  unfold base_eps_of in Heps.
  destruct (PyStr.contains "CIFAR" family) eqn:Hc; [by apply Heps |].
  destruct (PyStr.contains "MNIST" family) eqn:Hm; [by apply Heps |].
  unfold make_confidence_report_spsa, setup.
  erewrite bind_raise; [reflexivity |].
  erewrite bind_ok; [| exact Hms].
  unfold choose_attack. erewrite bind_raise; [reflexivity |].
  rewrite lift_run. unfold base_eps_of. fold family. by rewrite Hc, Hm.
Qed.

Lemma C3_witness :
  (∃ w2 fr,
     setup Demo.lib "cifar.joblib" 0 60000 0 10000 "test" None 40 new_world
       = (w2, Ok fr) ∧
     f_mc_params fr !! "eps" = Some (VFloat (8 / 255 * 2)%float)) ∧
  (∃ w2 fr,
     setup Demo.lib "model.joblib" 0 60000 0 10000 "test" None 40 new_world
       = (w2, Ok fr) ∧
     f_mc_params fr !! "eps" = Some (VFloat (0.3 * 1)%float)) ∧
  (make_confidence_report_spsa Demo.lib "svhn.joblib" 0 60000 0 10000 128
     "test" None 40 new_world).2
  = Raise (NotImplementedError "<class 'cleverhans.dataset.SVHN'>").
Proof.
  split_and!.
  - destruct (load_and_measure Demo.lib "cifar.joblib" 0 60000 0 10000 None
                new_world) as [w1 [ms | e]] eqn:Hrun;
      [| vm_compute in Hrun; discriminate].
    pose proof (C3_epsilon_by_family Demo.lib "cifar.joblib" 0 60000
                  0 10000 128 "test" None 40 new_world w1 ms Hrun) as H.
    vm_compute in Hrun. injection Hrun as <- <-.
    destruct (setup Demo.lib "cifar.joblib" 0 60000 0 10000 "test" None 40
                new_world) as [w2 [fr | e]] eqn:Hfr;
      [| vm_compute in Hfr; discriminate].
    exists w2, fr. split; [reflexivity |]. exact (H w2 fr eq_refl).
  - destruct (load_and_measure Demo.lib "model.joblib" 0 60000 0 10000 None
                new_world) as [w1 [ms | e]] eqn:Hrun;
      [| vm_compute in Hrun; discriminate].
    pose proof (C3_epsilon_by_family Demo.lib "model.joblib" 0 60000
                  0 10000 128 "test" None 40 new_world w1 ms Hrun) as H.
    vm_compute in Hrun. injection Hrun as <- <-.
    destruct (setup Demo.lib "model.joblib" 0 60000 0 10000 "test" None 40
                new_world) as [w2 [fr | e]] eqn:Hfr;
      [| vm_compute in Hfr; discriminate].
    exists w2, fr. split; [reflexivity |]. exact (H w2 fr eq_refl).
  - destruct (load_and_measure Demo.lib "svhn.joblib" 0 60000 0 10000 None
                new_world) as [w1 [ms | e]] eqn:Hrun;
      [| vm_compute in Hrun; discriminate].
    pose proof (C3_epsilon_by_family Demo.lib "svhn.joblib" 0 60000
                  0 10000 128 "test" None 40 new_world w1 ms Hrun) as H.
    vm_compute in Hrun. injection Hrun as <- <-.
    exact (f_equal snd H).
Defined.

(** C9: [CIFAR] is tested first.  A class name that contains both
    [CIFAR] and [MNIST] gets the budget [8/255], which is not the MNIST
    budget [0.3]. *)
Theorem C9_cifar_is_tested_first (cls_str : string) :
  PyStr.contains "CIFAR" cls_str = true →
  PyStr.contains "MNIST" cls_str = true →
  base_eps_of cls_str = Ok (8 / 255)%float ∧
  base_eps_of cls_str ≠ Ok 0.3%float.
Proof.
  intros Hc _. unfold base_eps_of. rewrite Hc. split; [done |].
  intros H. apply cifar_budget_is_not_mnist_budget.
  exact (f_equal (fun o => match o with Ok x => x | Raise _ => 0%float end) H).
Qed.

Lemma C9_witness :
  PyStr.contains "CIFAR" "<class 'zoo.MNIST_on_CIFAR'>" = true ∧
  PyStr.contains "MNIST" "<class 'zoo.MNIST_on_CIFAR'>" = true ∧
  base_eps_of "<class 'zoo.MNIST_on_CIFAR'>" = Ok (8 / 255)%float ∧
  base_eps_of "<class 'zoo.MNIST_on_CIFAR'>" ≠ Ok 0.3%float.
Proof.
  split; [reflexivity |]. split; [reflexivity |].
  exact (C9_cifar_is_tested_first "<class 'zoo.MNIST_on_CIFAR'>"
           eq_refl eq_refl).
Defined.

(** ** Binary64 arithmetic *)

Module FloatFacts.

Lemma binary_round_aux_opp (s : bool) (m e : Z) (l : location) :
  binary_round_aux prec emax (negb s) m e l
  = SFopp (binary_round_aux prec emax s m e l).
Proof.
  unfold binary_round_aux.
  destruct (shr_fexp prec emax m e l) as [r1 e1].
  destruct (shr_fexp prec emax _ e1 loc_Exact) as [r2 e2].
  destruct (shr_m r2); simpl; try done.
  by destruct (e2 <=? emax - prec)%Z.
Qed.

Lemma binary_round_opp (s : bool) (m : positive) (e : Z) :
  binary_round prec emax (negb s) m e
  = SFopp (binary_round prec emax s m e).
Proof.
  unfold binary_round.
  destruct (shl_align m e _) as [mz ez]. apply binary_round_aux_opp.
Qed.

Lemma SFopp_involutive (x : spec_float) : SFopp (SFopp x) = x.
Proof. destruct x; simpl; by rewrite ?negb_involutive. Qed.

Lemma SFmul_opp_l (x y : spec_float) :
  SF64mul (SFopp x) y = SFopp (SF64mul x y).
Proof.
  unfold SF64mul.
  destruct x as [sx | sx | | sx mx ex], y as [sy | sy | | sy my ey];
    simpl; rewrite <- ?negb_xorb_l; try done.
  apply binary_round_aux_opp.
Qed.

Lemma opp_involutive (x : float) : (- - x)%float = x.
Proof.
  apply Prim2SF_inj. rewrite !opp_spec. apply SFopp_involutive.
Qed.

Lemma mul_opp_l (a b : float) : (- a * b)%float = (- (a * b))%float.
Proof.
  apply Prim2SF_inj. rewrite opp_spec, !mul_spec, opp_spec.
  apply SFmul_opp_l.
Qed.

Lemma SFeqb_finite_refl (s : bool) (m : positive) (e : Z) :
  SFeqb (S754_finite s m e) (S754_finite s m e) = true.
Proof.
  unfold SFeqb. simpl.
  destruct s; by rewrite Z.compare_refl, Pos.compare_cont_refl.
Qed.

(** [0. - x] and [-x] denote the same number; only the sign of a zero
    can tell them apart. *)
Lemma zero_minus (x : float) :
  PyNum.same_number (0 - x)%float (- x)%float = true.
Proof.
  unfold PyNum.same_number, PrimFloat.is_nan.
  rewrite !FloatAxioms.eqb_spec, sub_spec, opp_spec.
  change (Prim2SF 0) with (S754_zero false).
  destruct (Prim2SF x) as [s | s | | s m e];
    [by destruct s | by destruct s | done |].
  unfold SF64sub. simpl. by rewrite SFeqb_finite_refl.
Qed.

(** [0. - a * b] against [-a * b]. *)
Lemma zero_minus_mul (a b : float) :
  PyNum.same_number (0 - a * b)%float (- a * b)%float = true.
Proof. rewrite mul_opp_l. apply zero_minus. Qed.

(** [0. - 0. * b] against [0. * b]: the product is a zero or a NaN. *)
Lemma zero_minus_zero_mul (b : float) :
  PyNum.same_number (0 - 0 * b)%float (0 * b)%float = true.
Proof.
  unfold PyNum.same_number, PrimFloat.is_nan.
  rewrite !FloatAxioms.eqb_spec, sub_spec, !mul_spec.
  change (Prim2SF 0) with (S754_zero false).
  destruct (Prim2SF b) as [s | s | | s m e];
    [by destruct s | by destruct s | done | by destruct s].
Qed.

Lemma SF2Prim_opp (x : spec_float) :
  SF2Prim (SFopp x) = (- SF2Prim x)%float.
Proof.
  destruct x as [[] | [] | | [] m e]; try reflexivity.
  simpl. by rewrite opp_involutive.
Qed.

Lemma is_infinity_opp (x : float) :
  PrimFloat.is_infinity (- x)%float = PrimFloat.is_infinity x.
Proof.
  unfold PrimFloat.is_infinity. f_equal.
  apply Prim2SF_inj. rewrite !abs_spec, opp_spec.
  by destruct (Prim2SF x).
Qed.

Lemma float_of_Z_zero : PyNum.float_of_Z 0 = Ok 0%float.
Proof. reflexivity. Qed.

(** Rounding to nearest-even is symmetric: [float(-z)] is [-float(z)]. *)
Lemma float_of_Z_opp (z : Z) (f : float) :
  z ≠ 0 →
  PyNum.float_of_Z z = Ok f →
  PyNum.float_of_Z (- z) = Ok (- f)%float.
Proof.
  intros Hz. unfold PyNum.float_of_Z.
  assert (Hn : binary_normalize prec emax (- z) 0 false
               = SFopp (binary_normalize prec emax z 0 false)).
  { destruct z as [| p | p]; [done | |]; simpl.
    - apply (binary_round_opp false).
    - rewrite <- (SFopp_involutive (binary_round prec emax false p 0)).
      f_equal. symmetry. apply (binary_round_opp false). }
  rewrite Hn, SF2Prim_opp, is_infinity_opp.
  destruct (PrimFloat.is_infinity _); [done |].
  intros H. f_equal. f_equal.
  exact (f_equal (fun o => match o with Ok x => x | Raise _ => 0%float end)
           H).
Qed.

End FloatFacts.

(** ** The metadata arithmetic (lines 105 to 108) *)

Lemma Ok_float_inj (x y : float) : Ok x = Ok y → x = y.
Proof.
  intros H.
  exact (f_equal (fun o => match o with Ok x => x | Raise _ => 0%float end) H).
Qed.

(** A [bool] coerces like its integer value. *)
Lemma to_float_bool (b : bool) :
  PyNum.to_float (VBool b) = PyNum.float_of_Z (Z.b2z b).
Proof. by destruct b. Qed.

Lemma negated_int_as_float (z : Z) (f : float) :
  PyNum.float_of_Z z = Ok f →
  ∃ f', PyNum.float_of_Z (- z) = Ok f' ∧
        PyNum.same_number (0 - f)%float f' = true.
Proof.
  destruct (decide (z = 0)) as [-> | Hz]; intros H.
  - rewrite FloatFacts.float_of_Z_zero in H. apply Ok_float_inj in H as <-.
    by exists 0%float.
  - exists (- f)%float. split; [by apply FloatFacts.float_of_Z_opp |].
    apply FloatFacts.zero_minus.
Qed.

Lemma negated_int_times_float (z : Z) (fz b : float) :
  PyNum.float_of_Z z = Ok fz →
  ∃ fz', PyNum.float_of_Z (- z) = Ok fz' ∧
         PyNum.same_number (0 - fz * b)%float (fz' * b)%float = true.
Proof.
  destruct (decide (z = 0)) as [-> | Hz]; intros H.
  - rewrite FloatFacts.float_of_Z_zero in H. apply Ok_float_inj in H as <-.
    exists 0%float. split; [done |]. apply FloatFacts.zero_minus_zero_mul.
  - exists (- fz)%float. split; [by apply FloatFacts.float_of_Z_opp |].
    apply FloatFacts.zero_minus_mul.
Qed.

(** Whenever line 108 computes [min_value], the spec's [-center * max_val]
    is defined too and denotes the same number. *)
Lemma min_value_matches_spec (center max_val : PyVal) (min_value : float) :
  min_value_of center max_val = Ok min_value →
  ∃ f, spec_min_value center max_val = Ok f ∧
       PyNum.same_number min_value f = true.
Proof.
  unfold min_value_of, spec_min_value.
  destruct center as [| b | x | cf | s]; try done;
    destruct max_val as [| b' | y | mf | s']; try done;
    cbn [PyNum.mul PyNum.neg PyNum.as_int]; rewrite ?to_float_bool;
    cbn [PyNum.to_float]; try done;
    try (by destruct (PyNum.float_of_Z _)).
  - (* bool, bool *)
    destruct (PyNum.float_of_Z (Z.b2z b * Z.b2z b')) as [f |] eqn:Hf;
      [| done].
    intros <-%Ok_float_inj.
    destruct (negated_int_as_float _ _ Hf) as (f' & Hf' & Hsame).
    exists f'. by rewrite Z.mul_opp_l.
  - (* bool, int *)
    destruct (PyNum.float_of_Z (Z.b2z b * y)) as [f |] eqn:Hf; [| done].
    intros <-%Ok_float_inj.
    destruct (negated_int_as_float _ _ Hf) as (f' & Hf' & Hsame).
    exists f'. by rewrite Z.mul_opp_l.
  - (* bool, float *)
    destruct (PyNum.float_of_Z (Z.b2z b)) as [fz |] eqn:Hf; [| done].
    intros <-%Ok_float_inj.
    destruct (negated_int_times_float _ _ mf Hf) as (fz' & -> & Hsame).
    by eexists.
  - (* int, bool *)
    destruct (PyNum.float_of_Z (x * Z.b2z b')) as [f |] eqn:Hf; [| done].
    intros <-%Ok_float_inj.
    destruct (negated_int_as_float _ _ Hf) as (f' & Hf' & Hsame).
    exists f'. by rewrite Z.mul_opp_l.
  - (* int, int *)
    destruct (PyNum.float_of_Z (x * y)) as [f |] eqn:Hf; [| done].
    intros <-%Ok_float_inj.
    destruct (negated_int_as_float _ _ Hf) as (f' & Hf' & Hsame).
    exists f'. by rewrite Z.mul_opp_l.
  - (* int, float *)
    destruct (PyNum.float_of_Z x) as [fz |] eqn:Hf; [| done].
    intros <-%Ok_float_inj.
    destruct (negated_int_times_float _ _ mf Hf) as (fz' & -> & Hsame).
    by eexists.
  - (* float, bool *)
    destruct (PyNum.float_of_Z (Z.b2z b')) as [fm |]; [| done].
    intros <-%Ok_float_inj. eexists. split; [done |].
    apply FloatFacts.zero_minus_mul.
  - (* float, int *)
    destruct (PyNum.float_of_Z y) as [fm |]; [| done].
    intros <-%Ok_float_inj. eexists. split; [done |].
    apply FloatFacts.zero_minus_mul.
  - (* float, float *)
    intros <-%Ok_float_inj. eexists. split; [done |].
    apply FloatFacts.zero_minus_mul.
Qed.

Lemma value_range_of_ok_inv (center max_val : PyVal) (value_range : float) :
  value_range_of center max_val = Ok value_range →
  ∃ c m, PyNum.to_float center = Ok c ∧ PyNum.to_float max_val = Ok m ∧
         value_range = (m * (1 + c))%float.
Proof.
  unfold value_range_of.
  destruct (PyNum.to_float center) as [c |]; [| done].
  destruct (PyNum.to_float max_val) as [m |]; [| done].
  intros <-%Ok_float_inj. by exists c, m.
Qed.

(** C6: in every frame handed to the loop, [center] and [max_val] are the
    dataset's metadata, read as floats [c] and [m]; [value_range] is
    [m * (1 + c)]; [min_value] denotes the same number as the spec's
    [-center * max_val]; the attack is given [min_value] as [clip_min] and
    [max_val], as found, as [clip_max]. *)
Theorem C6_range_and_clip_bounds (lib : Library) (filepath : string)
    (train_start train_end test_start test_end : Z)
    (which_set : string) (report_path : option string) (nb_iter : Z)
    (w w2 : World) (fr : Frame) :
  setup lib filepath train_start train_end test_start test_end
    which_set report_path nb_iter w = (w2, Ok fr) →
  let ms := f_measured fr in
  ds_kwargs (m_dataset ms) !! "center" = Some (m_center ms) ∧
  ds_kwargs (m_dataset ms) !! "max_val" = Some (m_max_val ms) ∧
  (∃ c m,
     PyNum.to_float (m_center ms) = Ok c ∧
     PyNum.to_float (m_max_val ms) = Ok m ∧
     m_value_range ms = (m * (1 + c))%float) ∧
  (∃ f,
     spec_min_value (m_center ms) (m_max_val ms) = Ok f ∧
     PyNum.same_number (m_min_value ms) f = true) ∧
  f_mc_params fr !! "clip_min" = Some (VFloat (m_min_value ms)) ∧
  f_mc_params fr !! "clip_max" = Some (m_max_val ms).
Proof.
  intros H ms.
  apply setup_ok_inv in H as (w1 & Hms & Hfr). fold ms in Hms, Hfr.
  apply load_and_measure_ok_inv in Hms as (model & Hms & _).
  destruct Hms as [_ _ _ _ _ _ Hc Hm Hvr Hmv].
  apply choose_attack_ok_inv in Hfr as (b & xy & _ & _ & Hfr & _).
  split_and!; try done.
  - by apply value_range_of_ok_inv.
  - by apply min_value_matches_spec.
  - rewrite Hfr. apply make_mc_params_lookup.
  - rewrite Hfr. apply make_mc_params_lookup.
Qed.

Lemma C6_witness :
  ∃ w2 fr,
    setup Demo.lib "cifar.joblib" 0 60000 0 10000 "test" None 40 new_world
      = (w2, Ok fr) ∧
    m_value_range (f_measured fr) = 2%float ∧
    f_mc_params fr !! "clip_min" = Some (VFloat (-1)%float) ∧
    f_mc_params fr !! "clip_max" = Some (VFloat 1%float) ∧
    spec_min_value (VBool true) (VFloat 1) = Ok (-1)%float.
Proof.
  destruct (setup Demo.lib "cifar.joblib" 0 60000 0 10000 "test" None 40
              new_world) as [w2 [fr | e]] eqn:Hrun;
    [| vm_compute in Hrun; discriminate].
  exists w2, fr. split; [reflexivity |].
  destruct (C6_range_and_clip_bounds _ _ _ _ _ _ _ _ _ _ _ _ Hrun)
    as (_ & _ & _ & _ & Hmin & Hmax).
  vm_compute in Hrun. injection Hrun as <- <-.
  split; [reflexivity |]. split; [exact Hmin |]. split; [exact Hmax |].
  reflexivity.
Defined.

(** ** The job loop (lines 125 to 151) *)

Lemma time_time_run (lib : Library) (w : World) :
  time_time lib w
  = ({| trace := trace w; ticks := S (ticks w) |}, Ok (clock lib (ticks w))).
Proof. done. Qed.

Section RunJob.
Context (lib : Library) (sess : Session) (model : Model).
Context (x_data : XData) (y_data : YData) (batch_size : Z).
Context (name : string) (attack : option Attack).
Context (attack_params : option (gmap string PyVal)).

Let evaluation :=
  correctness_and_confidence lib sess model x_data y_data batch_size
    (devices lib) attack attack_params.

Let job : Job := (name, attack, attack_params, None).

Let after (report : gmap string ReportEntry) (entry : ReportEntry)
    (w : World) : World * outcome (gmap string ReportEntry) :=
  ({| trace := trace w ++
               job_events batch_size attack attack_params
                 (clock lib (S (ticks w)) - clock lib (ticks w))%float
                 name entry;
      ticks := S (S (ticks w)) |},
   Ok (<[name := entry]> report)).

(** A job whose evaluation returns stores its entry under its name. *)
Lemma run_job_ok report w correct conf :
  evaluation = Ok (correct, conf) →
  run_job lib sess model x_data y_data batch_size report job w
  = after report {| correctness := correct; confidence := conf |} w.
Proof.
  subst evaluation job after. intros Heval. unfold run_job.
  erewrite bind_ok; [| apply time_time_run].
  step_emit.
  erewrite bind_ok; [| by rewrite lift_run, Heval].
  erewrite bind_ok; [| apply time_time_run].
  step_emit.
  step_emit.
  unfold mret, M_ret, ret, job_events. simpl.
  by rewrite <- !app_assoc.
Qed.

(** A job whose evaluation raises stops the loop with that exception. *)
Lemma run_job_raise report w e :
  evaluation = Raise e →
  (run_job lib sess model x_data y_data batch_size report job w).2
  = Raise e.
Proof.
  subst evaluation job. intros Heval. unfold run_job.
  erewrite bind_ok; [| apply time_time_run].
  step_emit.
  erewrite bind_raise; [reflexivity |].
  by rewrite lift_run, Heval.
Qed.

Lemma run_job_ok_inv report w w' report' :
  run_job lib sess model x_data y_data batch_size report job w
  = (w', Ok report') →
  ∃ correct conf,
    evaluation = Ok (correct, conf) ∧
    (w', Ok report')
    = after report {| correctness := correct; confidence := conf |} w.
Proof.
  intros H. destruct evaluation as [[correct conf] | e] eqn:Heval.
  - exists correct, conf. split; [done |].
    rewrite <- H. by apply run_job_ok.
  - apply (run_job_raise report w) in Heval. by rewrite H in Heval.
Qed.
End RunJob.

(** A report is returned exactly when both evaluations return, and then
    it holds their results under [clean] and [mc]. *)
Lemma build_report_ok_inv lib batch_size fr w w' report :
  build_report lib batch_size fr w = (w', Ok report) →
  let ms := f_measured fr in
  let mc := MaxConfidence (m_model ms) (m_sess ms)
              (SPSA (m_model ms) (m_sess ms)) in
  ∃ clean_entry mc_entry,
    correctness_and_confidence lib (m_sess ms) (m_model ms)
      (f_x_data fr) (f_y_data fr) batch_size (devices lib) None None
    = Ok (correctness clean_entry, confidence clean_entry) ∧
    correctness_and_confidence lib (m_sess ms) (m_model ms)
      (f_x_data fr) (f_y_data fr) batch_size (devices lib)
      (Some mc) (Some (f_mc_params fr))
    = Ok (correctness mc_entry, confidence mc_entry) ∧
    report = <["mc" := mc_entry]> (<["clean" := clean_entry]> ∅) ∧
    ∃ t1 t2,
      trace w' = trace w
                 ++ job_events batch_size None None t1 "clean" clean_entry
                 ++ job_events batch_size (Some mc) (Some (f_mc_params fr))
                      t2 "mc" mc_entry.
Proof.
  intros H ms mc. unfold build_report, jobs_of in H. cbn [run_jobs] in H.
  apply bind_ok_inv in H as (w1 & r1 & H1 & H).
  apply bind_ok_inv in H as (w2 & r2 & H2 & H).
  injection H as <- <-.
  apply run_job_ok_inv in H1 as (c1 & f1 & He1 & H1).
  apply run_job_ok_inv in H2 as (c2 & f2 & He2 & H2).
  injection H1 as -> ->. injection H2 as -> ->.
  exists {| correctness := c1; confidence := f1 |},
         {| correctness := c2; confidence := f2 |}.
  split_and!; try done.
  eexists _, _. simpl. by rewrite <- app_assoc.
Qed.

Lemma build_report_ok lib batch_size fr w clean_entry mc_entry :
  let ms := f_measured fr in
  let mc := MaxConfidence (m_model ms) (m_sess ms)
              (SPSA (m_model ms) (m_sess ms)) in
  correctness_and_confidence lib (m_sess ms) (m_model ms)
    (f_x_data fr) (f_y_data fr) batch_size (devices lib) None None
  = Ok (correctness clean_entry, confidence clean_entry) →
  correctness_and_confidence lib (m_sess ms) (m_model ms)
    (f_x_data fr) (f_y_data fr) batch_size (devices lib)
    (Some mc) (Some (f_mc_params fr))
  = Ok (correctness mc_entry, confidence mc_entry) →
  (build_report lib batch_size fr w).2
  = Ok (<["mc" := mc_entry]> (<["clean" := clean_entry]> ∅)).
Proof.
  intros ms mc H1 H2. unfold build_report, jobs_of. cbn [run_jobs].
  erewrite bind_ok; [| by apply run_job_ok].
  erewrite bind_ok; [| by apply run_job_ok].
  by destruct clean_entry, mc_entry.
Qed.

(** C7: the report the loop leaves behind has exactly the keys [clean]
    and [mc]; under either key, the correctness and the confidence array
    have one entry per example of [x_data]. *)
Theorem C7_report_shape (lib : Library) (batch_size : Z) (fr : Frame)
    (w w' : World) (report : gmap string ReportEntry) :
  evaluation_contract lib →
  build_report lib batch_size fr w = (w', Ok report) →
  dom report = ({["clean"; "mc"]} : gset string) ∧
  ∀ name entry,
    report !! name = Some entry →
    length (correctness entry) = length (f_x_data fr) ∧
    length (confidence entry) = length (f_x_data fr).
Proof.
  intros Hcontract H.
  apply build_report_ok_inv in H as (e1 & e2 & H1 & H2 & -> & _).
  apply Hcontract in H1, H2. split.
  - rewrite !dom_insert_L, dom_empty_L. set_solver.
  - intros name entry Hlook.
    apply lookup_insert_Some in Hlook as [[_ <-] | [_ Hlook]]; [done |].
    apply lookup_insert_Some in Hlook as [[_ <-] | [_ Hlook]]; [done |].
    by rewrite lookup_empty in Hlook.
Qed.

Lemma demo_evaluation_contract : evaluation_contract Demo.lib.
Proof.
  intros sess model x y bs devs attack params correct conf. simpl.
  unfold Demo.the_evaluation.
  destruct attack; intros H; injection H as <- <-;
    by rewrite !length_fmap.
Qed.

Lemma C7_witness :
  ∃ w2 fr w' report,
    setup Demo.lib "model.joblib" 0 60000 0 10000 "test" None 40 new_world
      = (w2, Ok fr) ∧
    build_report Demo.lib 128 fr w2 = (w', Ok report) ∧
    length (f_x_data fr) = 3%nat ∧
    dom report = ({["clean"; "mc"]} : gset string) ∧
    (correctness <$> report !! "mc") = Some [false; false; false].
Proof.
  destruct (setup Demo.lib "model.joblib" 0 60000 0 10000 "test" None 40
              new_world) as [w2 [fr | e]] eqn:Hfr;
    [| vm_compute in Hfr; discriminate].
  destruct (build_report Demo.lib 128 fr w2) as [w' [report | e]] eqn:Hrun;
    [| vm_compute in Hfr; injection Hfr as <- <-;
       vm_compute in Hrun; discriminate].
  exists w2, fr, w', report.
  split; [reflexivity |]. split; [exact Hrun |].
  pose proof (C7_report_shape _ _ _ _ _ _ demo_evaluation_contract Hrun)
    as [Hdom _].
  vm_compute in Hfr. injection Hfr as <- <-.
  split; [reflexivity |]. split; [exact Hdom |].
  vm_compute in Hrun. injection Hrun as <- <-. reflexivity.
Defined.

(** ** The final call (line 154) *)

Lemma save_is_not_a_global : "save" ∉ module_globals ++ builtins.
Proof. apply (bool_decide_unpack _). reflexivity. Qed.

Lemma call_save_run (path : string) (report : gmap string ReportEntry)
    (w : World) :
  call_save path report w = (w, Raise (NameError "save")).
Proof. reflexivity. Qed.

Lemma setup_trace lib filepath train_start train_end test_start test_end
    which_set report_path nb_iter w w1 fr :
  setup lib filepath train_start train_end test_start test_end
    which_set report_path nb_iter w = (w1, Ok fr) →
  trace w1 = trace w
             ++ measure_events filepath (m_factory (f_measured fr))
             ++ [EvGetSet which_set].
Proof.
  intros H. apply setup_ok_inv in H as (w0 & Hms & Hfr).
  apply load_and_measure_ok_inv in Hms as (model & _ & ->).
  apply choose_attack_ok_inv in Hfr as (b & xy & _ & _ & _ & ->).
  simpl. by rewrite <- app_assoc.
Qed.

(** C1, as the code has it: when the setup and both jobs have completed,
    the call of line 154 raises [NameError]: [save] is not among the names
    the module binds.  The world is the one the loop left, and the trace
    has gained no write of a report. *)
Theorem C1_save_is_not_bound (lib : Library) (filepath : string)
    (train_start train_end test_start test_end batch_size : Z)
    (which_set : string) (report_path : option string) (nb_iter : Z)
    (w w1 w2 : World) (fr : Frame) (report : gmap string ReportEntry) :
  setup lib filepath train_start train_end test_start test_end
    which_set report_path nb_iter w = (w1, Ok fr) →
  build_report lib batch_size fr w1 = (w2, Ok report) →
  make_confidence_report_spsa lib filepath train_start train_end
    test_start test_end batch_size which_set report_path nb_iter w
  = (w2, Raise (NameError "save")) ∧
  List.filter is_save (trace w2) = List.filter is_save (trace w).
Proof.
  intros Hfr Hrun. split.
  - unfold make_confidence_report_spsa.
    erewrite bind_ok; [| exact Hfr].
    erewrite bind_ok; [| exact Hrun].
    apply call_save_run.
  - apply setup_trace in Hfr.
    apply build_report_ok_inv in Hrun
      as (e1 & e2 & _ & _ & _ & t1 & t2 & ->).
    rewrite Hfr, !List.filter_app. simpl. by rewrite !app_nil_r.
Qed.

Lemma C1_witness :
  ∃ w2,
    make_confidence_report_spsa Demo.lib "model.joblib" 0 60000 0 10000 128
      "test" None 40 new_world = (w2, Raise (NameError "save")) ∧
    length (trace w2) = 12%nat ∧
    List.filter is_save (trace w2) = [].
Proof.
  destruct (setup Demo.lib "model.joblib" 0 60000 0 10000 "test" None 40
              new_world) as [w1 [fr | e]] eqn:Hfr;
    [| vm_compute in Hfr; discriminate].
  destruct (build_report Demo.lib 128 fr w1) as [w2 [report | e]] eqn:Hrun;
    [| vm_compute in Hfr; injection Hfr as <- <-;
       vm_compute in Hrun; discriminate].
  exists w2.
  destruct (C1_save_is_not_bound Demo.lib "model.joblib" 0 60000 0 10000 128
              "test" None 40 new_world w1 w2 fr report Hfr Hrun)
    as [Hraise Hnone].
  split; [exact Hraise |]. split; [| exact Hnone].
  vm_compute in Hfr. injection Hfr as <- <-.
  vm_compute in Hrun. injection Hrun as <- <-. reflexivity.
Defined.

(** ** The entry point (lines 156 to 168) *)

Lemma main_ignores_train_flags (lib : Library) (FLAGS : Flags)
    (train_start train_end : Z) (argv : option (list string)) (w : World) :
  main lib (with_train_flags FLAGS train_start train_end) argv w
  = main lib FLAGS argv w.
Proof. reflexivity. Qed.

(** C2, as the code has it: [main] reads six flags.  The values of the
    flags [train_start] and [train_end] have no influence on what [main]
    does: the call leaves both parameters to the defaults.  On the demo
    library, whose saved model was trained on the range 100 to 200, the
    flags ask for the train range 5 to 50 and the factory is called with
    the defaults 0 and 60000. *)
Theorem C2_train_flags_are_dropped :
  (∀ lib FLAGS train_start train_end argv w,
     main lib (with_train_flags FLAGS train_start train_end) argv w
     = main lib FLAGS argv w) ∧
  (∀ lib FLAGS script filepath w,
     main lib FLAGS (Some [script; filepath]) w
     = make_confidence_report_spsa lib filepath
         (TRAIN_START lib) (TRAIN_END lib)
         (flag_test_start FLAGS) (flag_test_end FLAGS)
         (flag_batch_size FLAGS) (flag_which_set FLAGS)
         (flag_report_path FLAGS) (flag_nb_iter FLAGS) w) ∧
  flag_train_start Demo.flags = 5 ∧
  flag_train_end Demo.flags = 50 ∧
  ∃ factory,
    trace (main Demo.lib Demo.flags
             (Some ["make_confidence_report_spsa.py"; "model.joblib"])
             new_world).1 !! 4%nat
    = Some (EvConstruct factory) ∧
    kwargs factory !! "train_start" = Some (VInt 0) ∧
    kwargs factory !! "train_end" = Some (VInt 60000).
Proof.
  split; [exact main_ignores_train_flags |].
  split; [reflexivity |]. split; [reflexivity |]. split; [reflexivity |].
  eexists. split; [vm_compute; reflexivity |]. split; reflexivity.
Qed.

(** C4: an argument vector that does not have exactly two elements, the
    script name and one positional argument, makes [main] raise
    [ValueError], carrying the vector, before anything else happens. *)
Theorem C4_wrong_argument_count (lib : Library) (FLAGS : Flags)
    (argv : list string) (w : World) :
  length argv ≠ 2%nat →
  main lib FLAGS (Some argv) w = (w, Raise (ValueError argv)).
Proof.
  intros Hlen. destruct argv as [| a [| b [| c rest]]]; try done.
Qed.

Lemma C4_witness :
  length ["make_confidence_report_spsa.py"] ≠ 2%nat ∧
  main Demo.lib Demo.flags (Some ["make_confidence_report_spsa.py"])
    new_world
  = (new_world, Raise (ValueError ["make_confidence_report_spsa.py"])).
Proof.
  assert (H : length ["make_confidence_report_spsa.py"] ≠ 2%nat)
    by discriminate.
  split; [exact H |].
  exact (C4_wrong_argument_count Demo.lib Demo.flags _ new_world H).
Defined.

(** * More properties of the script *)

(** ** The report path, continued *)

Lemma string_app_assoc (a b c : string) : (a +:+ b) +:+ c = a +:+ b +:+ c.
Proof.
  induction a as [| x a IH]; [done |].
  change (String x ((a +:+ b) +:+ c) = String x (a +:+ b +:+ c)).
  by rewrite IH.
Qed.

Lemma resolve_report_path_accepted (report_path : option string)
    (filepath : string) :
  accepts_path report_path filepath = true →
  ∃ path, ∀ w, resolve_report_path report_path filepath w = (w, Ok path).
Proof.
  destruct report_path as [p |]; cbn [accepts_path]; intros H.
  - by exists p.
  - eexists. intros w. by rewrite resolve_report_path_default, H.
Qed.


(** The shape of a default report path: the model path is its stem
    followed by [.joblib], the report path the same stem followed by
    [_spsa_report.joblib]. *)
Lemma default_report_path_inv (filepath : string) (w w' : World)
    (r : string) :
  resolve_report_path None filepath w = (w', Ok r) →
  ∃ stem, filepath = stem +:+ ".joblib" ∧
          r = stem +:+ "_spsa_report.joblib".
Proof.
  rewrite resolve_report_path_default.
  destruct (PyStr.endswith filepath ".joblib") eqn:Hext; [| done].
  intros [= _ <-]. exists (PyStr.drop_last 7 filepath).
  split; [| done]. by apply (PyStrFacts.endswith_split filepath ".joblib").
Qed.

(** X1: the default report path is never the model path: it is twelve
    characters longer, and it ends in [.joblib] like a model path. *)
Theorem default_report_path_is_fresh (filepath : string) (w w' : World)
    (r : string) :
  resolve_report_path None filepath w = (w', Ok r) →
  r ≠ filepath ∧
  String.length r = (String.length filepath + 12)%nat ∧
  PyStr.endswith r "_spsa_report.joblib" = true ∧
  PyStr.endswith r ".joblib" = true.
Proof.
  intros (stem & -> & ->)%default_report_path_inv.
  assert (Hlen : String.length (stem +:+ "_spsa_report.joblib")
                 = (String.length (stem +:+ ".joblib") + 12)%nat).
  { rewrite !PyStrFacts.length_app. simpl. lia. }
  split_and!; [| done | apply PyStrFacts.endswith_app |].
  - intros Heq. rewrite Heq in Hlen. lia.
  - change "_spsa_report.joblib" with ("_spsa_report" +:+ ".joblib").
    rewrite <- string_app_assoc. apply PyStrFacts.endswith_app.
Qed.

Lemma default_report_path_is_fresh_witness :
  ∃ r, resolve_report_path None "runs/model.joblib" new_world
       = (new_world, Ok r) ∧
       r = "runs/model_spsa_report.joblib" ∧
       r ≠ "runs/model.joblib" ∧ String.length r = 29%nat.
Proof.
  eexists. split; [reflexivity |]. split; [reflexivity |].
  destruct (default_report_path_is_fresh "runs/model.joblib" new_world
              new_world _ eq_refl) as (Hne & Hlen & _).
  split; [exact Hne | exact Hlen].
Defined.

(** X2: the model path can be read back from a default report path: cut
    the last nineteen characters and append [.joblib]. Two model paths
    therefore never share a default report path. *)
Theorem default_report_path_round_trip (filepath : string) (w w' : World)
    (r : string) :
  resolve_report_path None filepath w = (w', Ok r) →
  PyStr.drop_last 19 r +:+ ".joblib" = filepath ∧
  ∀ filepath' v v',
    resolve_report_path None filepath' v = (v', Ok r) →
    filepath' = filepath.
Proof.
  assert (Hback : ∀ f v v' r',
            resolve_report_path None f v = (v', Ok r') →
            PyStr.drop_last 19 r' +:+ ".joblib" = f).
  { intros f v v' r' (stem & -> & ->)%default_report_path_inv.
    change 19%nat with (String.length "_spsa_report.joblib").
    by rewrite PyStrFacts.drop_last_app. }
  intros H. split; [by eapply Hback |].
  intros f' v v' H'. apply Hback in H, H'. congruence.
Qed.

Lemma default_report_path_round_trip_witness :
  PyStr.drop_last 19 "runs/model_spsa_report.joblib" +:+ ".joblib"
  = "runs/model.joblib".
Proof.
  exact (proj1 (default_report_path_round_trip "runs/model.joblib"
                  new_world new_world "runs/model_spsa_report.joblib"
                  eq_refl)).
Defined.

(** ** What a run never does *)


Lemma grows_refl (w : World) : grows_without_save w w.
Proof. exists []. by rewrite app_nil_r. Qed.

Lemma grows_trans (w1 w2 w3 : World) :
  grows_without_save w1 w2 → grows_without_save w2 w3 →
  grows_without_save w1 w3.
Proof.
  intros (evs & H12 & Hevs) (evs' & H23 & Hevs').
  exists (evs ++ evs'). split.
  - by rewrite H23, H12, app_assoc.
  - by apply Forall_app.
Qed.

Section Quiet.
Context {A B : Type}.

Lemma quiet_ret (a : A) : quiet (mret a : M A).
Proof. intros w. apply grows_refl. Qed.

Lemma quiet_raise (e : exn) : quiet (raise e : M A).
Proof. intros w. apply grows_refl. Qed.

Lemma quiet_lift (o : outcome A) : quiet (lift o).
Proof. intros w. apply grows_refl. Qed.

Lemma quiet_bind (m : M A) (k : A → M B) :
  quiet m → (∀ a, quiet (k a)) → quiet (m ≫= k).
Proof.
  unfold quiet, mbind, M_bind, bind. intros Hm Hk w.
  specialize (Hm w). destruct (m w) as [w1 [a | e]]; [| done].
  eapply grows_trans; [exact Hm | apply Hk].
Qed.

Lemma never_returns_bind (m : M A) (k : A → M B) :
  (∀ a, never_returns (k a)) → never_returns (m ≫= k).
Proof.
  unfold never_returns, mbind, M_bind, bind. intros Hk w.
  destruct (m w) as [w1 [a | e]]; [apply Hk | by exists e].
Qed.
End Quiet.

Lemma quiet_emit (e : event) : is_save e = false → quiet (emit e).
Proof.
  intros He w. exists [e]. split; [done |]. by apply Forall_singleton.
Qed.

Lemma quiet_assert (b : bool) : quiet (assert b).
Proof. destruct b; intros w; apply grows_refl. Qed.

Lemma quiet_getitem (d : gmap string PyVal) (key : string) :
  quiet (getitem d key).
Proof. unfold getitem. destruct (d !! key); intros w; apply grows_refl. Qed.

Lemma quiet_time_time (lib : Library) : quiet (time_time lib).
Proof. intros w. exists []. by rewrite app_nil_r. Qed.

Lemma quiet_resolve_report_path (report_path : option string)
    (filepath : string) :
  quiet (resolve_report_path report_path filepath).
Proof.
  intros w.
  destruct (resolve_report_path report_path filepath w) as [w' r] eqn:H.
  apply resolve_report_path_pure in H as ->. apply grows_refl.
Qed.

Create HintDb quiet.
#[local] Hint Resolve quiet_ret quiet_raise quiet_lift quiet_emit
  quiet_assert quiet_getitem quiet_time_time quiet_resolve_report_path
  : quiet.

(** Splits a computation into its steps and closes each of them. *)
Ltac quiet_steps :=
  first [ solve [auto with quiet]
        | apply quiet_bind; [quiet_steps | intros ?; quiet_steps]
        | idtac ].

Lemma quiet_load_and_measure lib filepath train_start train_end
    test_start test_end report_path :
  quiet (load_and_measure lib filepath train_start train_end
           test_start test_end report_path).
Proof. unfold load_and_measure. quiet_steps. Qed.

Lemma quiet_choose_attack ms which_set nb_iter :
  quiet (choose_attack ms which_set nb_iter).
Proof. unfold choose_attack. quiet_steps. Qed.

Lemma quiet_run_job lib sess model x_data y_data batch_size report job :
  quiet (run_job lib sess model x_data y_data batch_size report job).
Proof.
  destruct job as [[[name attack] params] job_batch_size].
  unfold run_job. quiet_steps.
  match goal with p : list bool * list float |- _ => destruct p end.
  quiet_steps.
Qed.

Lemma quiet_run_jobs lib sess model x_data y_data batch_size jobs :
  ∀ report,
    quiet (run_jobs lib sess model x_data y_data batch_size report jobs).
Proof.
  induction jobs as [| job rest IH]; intros report; cbn [run_jobs].
  - apply quiet_ret.
  - apply quiet_bind; [apply quiet_run_job | intros r; apply IH].
Qed.

Lemma quiet_call_save path report : quiet (call_save path report).
Proof. intros w. rewrite call_save_run. apply grows_refl. Qed.

Lemma never_returns_call_save path report :
  never_returns (call_save path report).
Proof. intros w. rewrite call_save_run. by eexists. Qed.

#[local] Hint Resolve quiet_load_and_measure quiet_choose_attack
  quiet_run_jobs quiet_call_save : quiet.

Lemma quiet_make_confidence_report_spsa lib filepath train_start train_end
    test_start test_end batch_size which_set report_path nb_iter :
  quiet (make_confidence_report_spsa lib filepath train_start train_end
           test_start test_end batch_size which_set report_path nb_iter).
Proof.
  unfold make_confidence_report_spsa, setup, build_report. quiet_steps.
Qed.

(** X3: on every library and every input, [make_confidence_report_spsa]
    and [main] end by raising an exception, and all they do to the world
    is to add calls to the trace, none of which writes a report. *)
Theorem the_script_never_returns_nor_saves (lib : Library) :
  (∀ filepath train_start train_end test_start test_end batch_size
     which_set report_path nb_iter w,
     ∃ w' e,
       make_confidence_report_spsa lib filepath train_start train_end
         test_start test_end batch_size which_set report_path nb_iter w
       = (w', Raise e) ∧
       grows_without_save w w') ∧
  (∀ FLAGS argv w,
     ∃ w' e,
       main lib FLAGS argv w = (w', Raise e) ∧ grows_without_save w w').
Proof.
  assert (Hfun : ∀ filepath train_start train_end test_start test_end
                   batch_size which_set report_path nb_iter w,
            ∃ w' e,
              make_confidence_report_spsa lib filepath train_start
                train_end test_start test_end batch_size which_set
                report_path nb_iter w = (w', Raise e) ∧
              grows_without_save w w').
  { intros filepath a b c d bs ws rp nb w.
    pose proof (quiet_make_confidence_report_spsa lib filepath a b c d
                  bs ws rp nb w) as Hq.
    assert (Hn : never_returns
                   (make_confidence_report_spsa lib filepath a b c d
                      bs ws rp nb)).
    { unfold make_confidence_report_spsa.
      do 2 (apply never_returns_bind; intros).
      apply never_returns_call_save. }
    destruct (Hn w) as [e He].
    destruct (make_confidence_report_spsa lib filepath a b c d bs ws rp nb w)
      as [w' r]. simpl in *. subst r. by exists w', e. }
  split; [exact Hfun |].
  intros FLAGS [[| script [| filepath [| extra rest]]] |] w; simpl;
    try apply Hfun; eexists _, _; (split; [reflexivity | apply grows_refl]).
Qed.

(** ** Where the exceptions come from *)

Section RaisesOnly.
Context {A B : Type} (P : exn → Prop).




End RaisesOnly.










Section Accounting.
Context (lib : Library).

Let accounted (e : exn) : Prop := own_exception e ∨ library_exception lib e.

Lemma accounted_own (e : exn) : own_exception e → accounted e.
Proof. by left. Qed.





End Accounting.


(** ** Runs that stop before the loop *)

Lemma measure_events_load_events (filepath : string) (factory : Factory) :
  measure_events filepath factory
  = load_events filepath ++ [EvConstruct factory].
Proof. done. Qed.

Section StopsBeforeTheLoop.
Context (lib : Library) (filepath : string).
Context (train_start train_end test_start test_end batch_size : Z).
Context (which_set : string) (report_path : option string) (nb_iter : Z).
Context (w : World).

Let whole_run : World * outcome unit :=
  make_confidence_report_spsa lib filepath train_start train_end
    test_start test_end batch_size which_set report_path nb_iter w.

Let world_after (evs : list event) : World :=
  {| trace := trace w ++ evs; ticks := ticks w |}.

Hypothesis Hpath : accepts_path report_path filepath = true.

(** The function stops where [load_and_measure] stops. *)
Lemma run_stops_with_load_and_measure (w' : World) (e : exn) :
  load_and_measure lib filepath train_start train_end test_start test_end
    report_path w = (w', Raise e) →
  whole_run = (w', Raise e).
Proof.
  intros H. subst whole_run. unfold make_confidence_report_spsa, setup.
  erewrite bind_raise; [reflexivity |].
  erewrite bind_raise; [reflexivity | exact H].
Qed.

(** X5: an exception of [load] is passed on as it is; the factory has not
    been touched. *)
Theorem load_failure_is_passed_on (e : exn) :
  load lib filepath = Raise e →
  whole_run = (world_after (load_events filepath), Raise e).
Proof.
  intros Hload. apply run_stops_with_load_and_measure.
  destruct (resolve_report_path_accepted _ _ Hpath) as [path Hres].
  unfold load_and_measure. do 3 step_emit.
  erewrite bind_ok; [| apply Hres]. step_emit.
  erewrite bind_raise; [| by rewrite lift_run, Hload].
  subst world_after. simpl. by rewrite <- !app_assoc.
Qed.

Section Loaded.
Context (model : Model).
Hypothesis Hload : load lib filepath = Ok model.

Let factory : Factory :=
  set_bounds (dataset_factory model)
    train_start train_end test_start test_end.

(** X6: a model whose [get_params()] is empty fails the assertion of line
    97, before its factory is called. *)
Theorem model_without_parameters_is_rejected :
  get_params model = [] →
  whole_run = (world_after (load_events filepath), Raise AssertionError).
Proof.
  intros Hparams. apply run_stops_with_load_and_measure.
  destruct (resolve_report_path_accepted _ _ Hpath) as [path Hres].
  unfold load_and_measure. do 3 step_emit.
  erewrite bind_ok; [| apply Hres]. step_emit.
  erewrite bind_ok; [| by rewrite lift_run, Hload].
  erewrite bind_raise; [| by rewrite Hparams].
  subst world_after. simpl. by rewrite <- !app_assoc.
Qed.

Hypothesis Hparams : get_params model ≠ [].

(** X7: an exception of the factory is passed on as it is. *)
Theorem construct_failure_is_passed_on (e : exn) :
  construct lib factory = Raise e →
  whole_run = (world_after (measure_events filepath factory), Raise e).
Proof.
  intros Hcons. apply run_stops_with_load_and_measure.
  destruct (resolve_report_path_accepted _ _ Hpath) as [path Hres].
  unfold load_and_measure. do 3 step_emit.
  erewrite bind_ok; [| apply Hres]. step_emit.
  erewrite bind_ok; [| by rewrite lift_run, Hload].
  erewrite bind_ok; cycle 1.
  { rewrite bool_decide_eq_true_2; [reflexivity |].
    destruct (get_params model); [done | simpl; lia]. }
  step_emit.
  erewrite bind_raise; [| by rewrite lift_run; fold factory; rewrite Hcons].
  subst world_after. simpl. by rewrite <- !app_assoc.
Qed.

Section Built.
Context (dataset : Dataset).
Hypothesis Hcons : construct lib factory = Ok dataset.

(** The run up to the two subscripts of lines 105 and 106. *)
Lemma load_and_measure_built :
  load_and_measure lib filepath train_start train_end test_start test_end
    report_path w
  = match ds_kwargs dataset !! "center", ds_kwargs dataset !! "max_val" with
    | None, _ =>
        (world_after (measure_events filepath factory),
         Raise (KeyError "center"))
    | Some _, None =>
        (world_after (measure_events filepath factory),
         Raise (KeyError "max_val"))
    | Some center, Some max_val =>
        match value_range_of center max_val with
        | Raise e =>
            (world_after (measure_events filepath factory), Raise e)
        | Ok value_range =>
            match min_value_of center max_val with
            | Raise e =>
            (world_after (measure_events filepath factory), Raise e)
            | Ok min_value =>
                (world_after (measure_events filepath factory),
                 Ok {| m_sess := TheSession;
                       m_report_path :=
                         match report_path with
                         | Some p => p
                         | None => PyStr.drop_last 7 filepath
                                   +:+ "_spsa_report.joblib"
                         end;
                       m_model := {| get_params := get_params model;
                                     dataset_factory := factory |};
                       m_factory := factory; m_dataset := dataset;
                       m_center := center; m_max_val := max_val;
                       m_value_range := value_range;
                       m_min_value := min_value |})
            end
        end
    end.
Proof.
  assert (Hres : ∀ v, resolve_report_path report_path filepath v
                      = (v, Ok match report_path with
                               | Some p => p
                               | None => PyStr.drop_last 7 filepath
                                         +:+ "_spsa_report.joblib"
                               end)).
  { intros v. destruct report_path as [p |]; [done |].
    simpl in Hpath. by rewrite resolve_report_path_default, Hpath. }
  assert (Hw : ∀ evs,
            {| trace := (((((trace w ++ [EvSetRandomSeed 1234])
                            ++ [EvSetLogLevel logging_INFO])
                           ++ [EvSession]) ++ [EvLoad filepath])
                         ++ [EvConstruct factory]) ++ evs;
               ticks := ticks w |}
            = world_after (measure_events filepath factory ++ evs)).
  { intros evs. subst world_after. simpl. by rewrite <- !app_assoc. }
  unfold load_and_measure. do 3 step_emit.
  erewrite bind_ok; [| apply Hres]. step_emit.
  erewrite bind_ok; [| by rewrite lift_run, Hload].
  erewrite bind_ok; cycle 1.
  { rewrite bool_decide_eq_true_2; [reflexivity |].
    destruct (get_params model); [done | simpl; lia]. }
  step_emit.
  erewrite bind_ok; [| by rewrite lift_run; fold factory; rewrite Hcons].
  specialize (Hw []). rewrite !app_nil_r in Hw. simpl in Hw.
  unfold getitem.
  destruct (ds_kwargs dataset !! "center") as [center |];
    [| erewrite bind_raise; [| reflexivity]; by rewrite <- Hw].
  erewrite bind_ok; [| reflexivity].
  destruct (ds_kwargs dataset !! "max_val") as [max_val |];
    [| erewrite bind_raise; [| reflexivity]; by rewrite <- Hw].
  erewrite bind_ok; [| reflexivity].
  destruct (value_range_of center max_val) as [value_range | e];
    [| erewrite bind_raise; [| reflexivity]; by rewrite <- Hw].
  erewrite bind_ok; [| reflexivity].
  destruct (min_value_of center max_val) as [min_value | e];
    [| erewrite bind_raise; [| reflexivity]; by rewrite <- Hw].
  erewrite bind_ok; [| reflexivity].
  by rewrite <- Hw.
Qed.

(** X8: a dataset that did not record [center], or [max_val], makes the
    function raise [KeyError]; [center] is looked up first. *)
Theorem missing_metadata_is_a_key_error :
  ds_kwargs dataset !! "center" = None ∨
  ds_kwargs dataset !! "max_val" = None →
  whole_run = (world_after (measure_events filepath factory),
         Raise (KeyError match ds_kwargs dataset !! "center" with
                         | None => "center"
                         | Some _ => "max_val"
                         end)).
Proof.
  intros Hmiss. apply run_stops_with_load_and_measure.
  rewrite load_and_measure_built.
  destruct (ds_kwargs dataset !! "center") as [c |]; [| done].
  destruct Hmiss as [? | ->]; done.
Qed.

(** X9: metadata that is not a number makes line 107 raise [TypeError]:
    [center] when it is [None] or a string, [max_val] when [center] could
    be read. *)
Theorem metadata_must_be_numbers (center max_val : PyVal) :
  ds_kwargs dataset !! "center" = Some center →
  ds_kwargs dataset !! "max_val" = Some max_val →
  is_number center = false ∨
  (is_number max_val = false ∧ ∃ c, PyNum.to_float center = Ok c) →
  whole_run
  = (world_after (measure_events filepath factory), Raise TypeError).
Proof.
  intros Hc Hm Hbad. apply run_stops_with_load_and_measure.
  rewrite load_and_measure_built, Hc, Hm.
  assert (value_range_of center max_val = Raise TypeError) as ->; [| done].
  unfold value_range_of. destruct Hbad as [Hbad | [Hbad [c ->]]].
  - by destruct center.
  - by destruct max_val.
Qed.

End Built.
End Loaded.
End StopsBeforeTheLoop.

(** ** The loop, job by job *)

Lemma run_job_raise_run lib sess model x_data y_data batch_size name
    attack attack_params report w e :
  correctness_and_confidence lib sess model x_data y_data batch_size
    (devices lib) attack attack_params = Raise e →
  run_job lib sess model x_data y_data batch_size report
    (name, attack, attack_params, None) w
  = ({| trace := trace w ++ [EvEvaluate batch_size attack attack_params];
        ticks := S (ticks w) |}, Raise e).
Proof.
  intros Heval. unfold run_job.
  erewrite bind_ok; [| apply time_time_run]. step_emit.
  erewrite bind_raise; [reflexivity |].
  by rewrite lift_run, Heval.
Qed.

Section AfterSetup.
Context (lib : Library) (filepath : string).
Context (train_start train_end test_start test_end batch_size : Z).
Context (which_set : string) (report_path : option string) (nb_iter : Z).
Context (w w1 : World) (fr : Frame).

Hypothesis Hsetup :
  setup lib filepath train_start train_end test_start test_end
    which_set report_path nb_iter w = (w1, Ok fr).

Let the_run : World * outcome unit :=
  make_confidence_report_spsa lib filepath train_start train_end
    test_start test_end batch_size which_set report_path nb_iter w.

Let model : Model := m_model (f_measured fr).
Let sess : Session := m_sess (f_measured fr).
Let mc : Attack := MaxConfidence model sess (SPSA model sess).

Let clean_evaluation : outcome (list bool * list float) :=
  correctness_and_confidence lib sess model (f_x_data fr) (f_y_data fr)
    batch_size (devices lib) None None.

Let mc_evaluation : outcome (list bool * list float) :=
  correctness_and_confidence lib sess model (f_x_data fr) (f_y_data fr)
    batch_size (devices lib) (Some mc) (Some (f_mc_params fr)).

Let clean_events (entry : ReportEntry) : list event :=
  job_events batch_size None None
    (clock lib (S (ticks w1)) - clock lib (ticks w1))%float "clean" entry.

Let mc_events (entry : ReportEntry) : list event :=
  job_events batch_size (Some mc) (Some (f_mc_params fr))
    (clock lib (S (S (S (ticks w1)))) - clock lib (S (S (ticks w1))))%float
    "mc" entry.

Lemma run_is_the_loop_then_save :
  the_run = (report ← build_report lib batch_size fr;
         call_save (m_report_path (f_measured fr)) report) w1.
Proof.
  subst the_run. unfold make_confidence_report_spsa.
  by erewrite bind_ok; [| exact Hsetup].
Qed.

(** X10: when the evaluation of the clean data raises, the function raises
    the same exception at once: nothing is printed and the attack is never
    run. *)
Theorem clean_failure_stops_the_run (e : exn) :
  clean_evaluation = Raise e →
  the_run = ({| trace := trace w1 ++ [EvEvaluate batch_size None None];
            ticks := S (ticks w1) |}, Raise e).
Proof.
  intros Heval. rewrite run_is_the_loop_then_save.
  erewrite bind_raise; [reflexivity |].
  unfold build_report, jobs_of. cbn [run_jobs].
  erewrite bind_raise; [reflexivity |].
  by apply run_job_raise_run.
Qed.

(** X11: when the evaluation under attack raises, the function raises the
    same exception; by then the clean data has been evaluated and its
    statistics printed. *)
Theorem attack_failure_comes_after_the_clean_job (correct : list bool)
    (conf : list float) (e : exn) :
  clean_evaluation = Ok (correct, conf) →
  mc_evaluation = Raise e →
  the_run = ({| trace :=
              trace w1
              ++ clean_events {| correctness := correct;
                                 confidence := conf |}
              ++ [EvEvaluate batch_size (Some mc) (Some (f_mc_params fr))];
            ticks := S (S (S (ticks w1))) |},
         Raise e).
Proof.
  intros Hclean Hmc. rewrite run_is_the_loop_then_save.
  erewrite bind_raise; [reflexivity |].
  unfold build_report, jobs_of. cbn [run_jobs].
  erewrite bind_ok; [| by apply run_job_ok].
  erewrite bind_raise; [reflexivity |].
  rewrite (run_job_raise_run _ _ _ _ _ _ _ _ _ _ _ e Hmc).
  simpl. by rewrite <- app_assoc.
Qed.

(** X12: when both evaluations return, the loop makes exactly six calls,
    the clean job first, both jobs with the batch size the function was
    given, the attack being MaxConfidence over SPSA on the loaded model;
    the clock is read four times; then line 154 raises. *)
Theorem complete_run (clean_entry mc_entry : ReportEntry) :
  clean_evaluation
  = Ok (correctness clean_entry, confidence clean_entry) →
  mc_evaluation = Ok (correctness mc_entry, confidence mc_entry) →
  the_run = ({| trace := trace w1 ++ clean_events clean_entry
                     ++ mc_events mc_entry;
            ticks := S (S (S (S (ticks w1)))) |},
         Raise (NameError "save")) ∧
  (build_report lib batch_size fr w1).2
  = Ok (<["mc" := mc_entry]> (<["clean" := clean_entry]> ∅)).
Proof.
  intros Hclean Hmc. split; [| by apply build_report_ok].
  rewrite run_is_the_loop_then_save.
  unfold build_report, jobs_of. cbn [run_jobs].
  erewrite bind_ok; cycle 1.
  { erewrite bind_ok; [| by apply run_job_ok].
    erewrite bind_ok; [| by apply run_job_ok].
    reflexivity. }
  rewrite call_save_run. simpl. rewrite <- app_assoc.
  by destruct clean_entry, mc_entry.
Qed.

End AfterSetup.

(** X13: the attack parameters have exactly the four keys of the dict
    literal, and [nb_iter] is the value the function was given. *)
Theorem attack_parameters_have_four_keys (lib : Library)
    (filepath : string) (train_start train_end test_start test_end : Z)
    (which_set : string) (report_path : option string) (nb_iter : Z)
    (w w1 : World) (fr : Frame) :
  setup lib filepath train_start train_end test_start test_end
    which_set report_path nb_iter w = (w1, Ok fr) →
  dom (f_mc_params fr)
  = ({["eps"; "nb_iter"; "clip_min"; "clip_max"]} : gset string) ∧
  f_mc_params fr !! "nb_iter" = Some (VInt nb_iter).
Proof.
  intros Hsetup.
  apply setup_ok_inv in Hsetup as (w0 & _ & Hfr).
  apply choose_attack_ok_inv in Hfr as (b & xy & _ & _ & -> & _).
  simpl. split; [| apply make_mc_params_lookup].
  unfold make_mc_params. rewrite !dom_insert_L, dom_empty_L. set_solver.
Qed.

(** X14: an exception of [get_set], for instance on a [which_set] the
    dataset does not have, is passed on as it is. It comes late: the model
    has been loaded, the dataset built and the family recognised. *)
Theorem get_set_failure_is_passed_on (lib : Library) (filepath : string)
    (train_start train_end test_start test_end batch_size : Z)
    (which_set : string) (report_path : option string) (nb_iter : Z)
    (w w1 : World) (ms : Measured) (base_eps : float) (e : exn) :
  load_and_measure lib filepath train_start train_end test_start test_end
    report_path w = (w1, Ok ms) →
  base_eps_of (cls (m_factory ms)) = Ok base_eps →
  get_set (m_dataset ms) which_set = Raise e →
  make_confidence_report_spsa lib filepath train_start train_end
    test_start test_end batch_size which_set report_path nb_iter w
  = ({| trace := trace w1 ++ [EvGetSet which_set]; ticks := ticks w1 |},
     Raise e).
Proof.
  intros Hms Hbase Hget. unfold make_confidence_report_spsa, setup.
  erewrite bind_raise; [reflexivity |].
  erewrite bind_ok; [| exact Hms].
  unfold choose_attack.
  erewrite bind_ok; [| by rewrite lift_run, Hbase]. step_emit.
  erewrite bind_raise; [reflexivity |].
  by rewrite lift_run, Hget.
Qed.

(** ** What the report path is used for *)

(** X15: once past the assertion, the report path plays no part: two
    report paths that are both accepted give the same trace and the same
    exception. The path is only read by line 154, which raises before it
    uses it. *)
Theorem report_path_is_never_used (lib : Library) (filepath : string)
    (train_start train_end test_start test_end batch_size : Z)
    (which_set : string) (report_path report_path' : option string)
    (nb_iter : Z) (w : World) :
  accepts_path report_path filepath = true →
  accepts_path report_path' filepath = true →
  make_confidence_report_spsa lib filepath train_start train_end
    test_start test_end batch_size which_set report_path nb_iter w
  = make_confidence_report_spsa lib filepath train_start train_end
      test_start test_end batch_size which_set report_path' nb_iter w.
Proof.
  intros [p Hp]%resolve_report_path_accepted
         [p' Hp']%resolve_report_path_accepted.
  unfold make_confidence_report_spsa, setup, load_and_measure,
    choose_attack, build_report, jobs_of.
  cbn [run_jobs]. unfold run_job.
  unfold mbind, M_bind, bind, emit, lift, assert, getitem, mret, M_ret,
    ret, raise, time_time.
  rewrite Hp, Hp'. cbn [m_factory m_dataset m_model m_sess f_measured
    f_x_data f_y_data f_mc_params m_value_range m_min_value m_max_val
    m_report_path].
  repeat (case_match; simplify_eq/=; try done).
Qed.

(** ** The bounds saved with the model *)

(** X16: the factory after lines 99 to 102 does not depend on the bounds
    the model was saved with: two factories of the same class that agree
    on every other keyword argument give the same factory. The four keys
    are there afterwards, whether or not they were before. *)
Theorem saved_bounds_are_overwritten (f f' : Factory)
    (train_start train_end test_start test_end : Z) :
  cls f = cls f' →
  (∀ key, key ∉ bound_keys → kwargs f !! key = kwargs f' !! key) →
  set_bounds f train_start train_end test_start test_end
  = set_bounds f' train_start train_end test_start test_end ∧
  dom (kwargs (set_bounds f train_start train_end test_start test_end))
  = dom (kwargs f) ∪ list_to_set bound_keys.
Proof.
  intros Hcls Hrest. split.
  - unfold set_bounds. rewrite Hcls. f_equal.
    apply map_eq. intros key. rewrite !lookup_insert.
    repeat case_decide; try done.
    apply Hrest. unfold bound_keys.
    rewrite !not_elem_of_cons. split_and!; try congruence.
    apply not_elem_of_nil.
  - unfold set_bounds, bound_keys. cbn [kwargs list_to_set foldr].
    rewrite !dom_insert_L. apply set_eq. intros key.
    rewrite !elem_of_union, !elem_of_singleton, elem_of_empty. tauto.
Qed.

Lemma saved_bounds_are_overwritten_witness :
  ∃ f' : Factory,
    kwargs f' !! "train_start" = Some (VInt 7) ∧
    kwargs f' !! "train_end" = None ∧
    kwargs Demo.mnist_factory !! "train_start" = Some (VInt 100) ∧
    set_bounds Demo.mnist_factory 5 50 0 3 = set_bounds f' 5 50 0 3.
Proof.
  exists {| cls := cls Demo.mnist_factory;
            kwargs := <["train_start" := VInt 7]>
                        (delete "train_end" (kwargs Demo.mnist_factory)) |}.
  split; [reflexivity |]. split; [reflexivity |]. split; [reflexivity |].
  apply saved_bounds_are_overwritten; [reflexivity |].
  intros key Hkey. cbn [kwargs].
  rewrite lookup_insert_ne, lookup_delete_ne; [done | |];
    intros <-; apply Hkey; unfold bound_keys;
    rewrite !elem_of_cons; tauto.
Defined.

(** ** The metadata of the library's datasets: a [bool] and a [float] *)

Module ExactProducts.

Lemma shr_52 (m : positive) (e : Z) :
  shr (shr_record_of_loc (Z.pos (4503599627370496 * m)) loc_Exact) e 52
  = ({| shr_m := Z.pos m; shr_r := false; shr_s := false |}, e + 52).
Proof. reflexivity. Qed.

Lemma digits2_pos_shift52 (m : positive) :
  Z.pos (digits2_pos (4503599627370496 * m))
  = Z.pos (digits2_pos m) + 52.
Proof.
  lazy beta iota delta [Pos.mul]. cbn [digits2_pos].
  rewrite !Pos2Z.inj_succ. lia.
Qed.

(** Rounding [m * 2^52] at exponent [e - 52] gives back [m] at [e] when
    that is a valid float. *)
Lemma binary_round_aux_one (s : bool) (m : positive) (e e' : Z) :
  bounded prec emax m e = true →
  e' = e + -52 →
  binary_round_aux prec emax s (Z.pos (4503599627370496 * m)) e' loc_Exact
  = S754_finite s m e.
Proof.
  unfold bounded, canonical_mantissa.
  intros [Hc%Z.eqb_eq Hb]%andb_prop ->.
  unfold binary_round_aux, shr_fexp, Zdigits2.
  rewrite digits2_pos_shift52.
  replace (Z.pos (digits2_pos m) + 52 + (e + -52))
    with (Z.pos (digits2_pos m) + e) by lia.
  rewrite Hc. replace (e - (e + -52)) with 52 by lia.
  rewrite shr_52. cbn [shr_m loc_of_shr_record round_nearest_even].
  replace (e + -52 + 52) with e by lia.
  rewrite Hc, Z.sub_diag. cbn [shr shr_record_of_loc shr_m].
  by rewrite Hb.
Qed.

Lemma SFmul_one_r (x : spec_float) :
  valid_binary x = true → SF64mul x (Prim2SF 1) = x.
Proof.
  change (Prim2SF 1) with (S754_finite false 4503599627370496 (-52)).
  destruct x as [s | s | | s m e]; intros Hv; cbn [SF64mul SFmul];
    rewrite ?xorb_false_r; try done.
  rewrite (Pos.mul_comm m). by apply binary_round_aux_one.
Qed.

Lemma SFmul_one_l (x : spec_float) :
  valid_binary x = true → SF64mul (Prim2SF 1) x = x.
Proof.
  change (Prim2SF 1) with (S754_finite false 4503599627370496 (-52)).
  destruct x as [s | s | | s m e]; intros Hv; cbn [SF64mul SFmul xorb];
    try done.
  apply binary_round_aux_one; [done | lia].
Qed.

Lemma mul_one_r (x : float) : (x * 1)%float = x.
Proof.
  apply Prim2SF_inj. rewrite mul_spec. apply SFmul_one_r, Prim2SF_valid.
Qed.

Lemma mul_one_l (x : float) : (1 * x)%float = x.
Proof.
  apply Prim2SF_inj. rewrite mul_spec. apply SFmul_one_l, Prim2SF_valid.
Qed.

(** A finite float is a zero or has a mantissa. *)
Lemma is_finite_inv (x : float) :
  PrimFloat.is_finite x = true →
  (∃ s, Prim2SF x = S754_zero s) ∨ (∃ s m e, Prim2SF x = S754_finite s m e).
Proof.
  unfold PrimFloat.is_finite, PrimFloat.is_nan, PrimFloat.is_infinity.
  rewrite !FloatAxioms.eqb_spec, abs_spec.
  change (Prim2SF infinity) with (S754_infinity false).
  destruct (Prim2SF x) as [s | s | | s m e]; intros H;
    [left; eauto | by destruct s | by vm_compute in H | right; eauto].
Qed.

Lemma zero_minus_zero_mul_finite (x : float) :
  PrimFloat.is_finite x = true → (0 - 0 * x)%float = 0%float.
Proof.
  intros Hx. apply Prim2SF_inj. rewrite sub_spec, mul_spec.
  change (Prim2SF 0) with (S754_zero false).
  destruct (is_finite_inv x Hx) as [[s ->] | (s & m & e & ->)];
    by destruct s.
Qed.

End ExactProducts.

(** X17: for a dataset that is not centered ([center] is [False]) and has
    a finite float [max_val], the value range is [max_val] itself, the
    attack budget is the family's budget times [max_val], and the attack
    clips to the interval from [0.0] to [max_val]. *)
Theorem uncentered_data_is_clipped_at_zero (lib : Library)
    (filepath : string) (train_start train_end test_start test_end : Z)
    (which_set : string) (report_path : option string) (nb_iter : Z)
    (w w2 : World) (fr : Frame) (max_val : float) :
  setup lib filepath train_start train_end test_start test_end
    which_set report_path nb_iter w = (w2, Ok fr) →
  m_center (f_measured fr) = VBool false →
  m_max_val (f_measured fr) = VFloat max_val →
  PrimFloat.is_finite max_val = true →
  m_value_range (f_measured fr) = max_val ∧
  f_mc_params fr !! "eps" = Some (VFloat (f_base_eps fr * max_val)%float) ∧
  f_mc_params fr !! "clip_min" = Some (VFloat 0%float) ∧
  f_mc_params fr !! "clip_max" = Some (VFloat max_val).
Proof.
  intros Hsetup Hc Hm Hfin.
  apply setup_ok_inv in Hsetup as (w1 & Hms & Hfr).
  apply load_and_measure_ok_inv in Hms as (model & Hms & _).
  destruct Hms as [_ _ _ _ _ _ _ _ Hvr Hmv].
  rewrite Hc, Hm in Hvr, Hmv.
  apply choose_attack_ok_inv in Hfr as (b & xy & _ & _ & Hfr & _).
  assert (Hrange : m_value_range (f_measured fr) = max_val).
  { apply Ok_float_inj. rewrite <- Hvr. cbn.
    change (1 + 0)%float with 1%float.
    by rewrite ExactProducts.mul_one_r. }
  assert (Hmin : m_min_value (f_measured fr) = 0%float).
  { apply Ok_float_inj. rewrite <- Hmv. cbn.
    by rewrite ExactProducts.zero_minus_zero_mul_finite. }
  split; [done |].
  rewrite Hfr at 1 3 4. cbn [f_mc_params f_base_eps].
  rewrite Hrange, Hmin, Hm. rewrite Hfr. cbn [f_base_eps].
  destruct (make_mc_params_lookup b max_val nb_iter 0%float (VFloat max_val))
    as (Heps & _ & Hlo & Hhi).
  done.
Qed.

(** X18: for a centered dataset ([center] is [True]) with a float
    [max_val], the value range is twice [max_val] and the lower clip bound
    is [0. - max_val], the same number as [-max_val]. *)
Theorem centered_data_is_clipped_symmetrically (lib : Library)
    (filepath : string) (train_start train_end test_start test_end : Z)
    (which_set : string) (report_path : option string) (nb_iter : Z)
    (w w2 : World) (fr : Frame) (max_val : float) :
  setup lib filepath train_start train_end test_start test_end
    which_set report_path nb_iter w = (w2, Ok fr) →
  m_center (f_measured fr) = VBool true →
  m_max_val (f_measured fr) = VFloat max_val →
  m_value_range (f_measured fr) = (max_val * 2)%float ∧
  f_mc_params fr !! "clip_min" = Some (VFloat (0 - max_val)%float) ∧
  PyNum.same_number (0 - max_val)%float (- max_val)%float = true ∧
  f_mc_params fr !! "clip_max" = Some (VFloat max_val).
Proof.
  intros Hsetup Hc Hm.
  apply setup_ok_inv in Hsetup as (w1 & Hms & Hfr).
  apply load_and_measure_ok_inv in Hms as (model & Hms & _).
  destruct Hms as [_ _ _ _ _ _ _ _ Hvr Hmv].
  rewrite Hc, Hm in Hvr, Hmv.
  apply choose_attack_ok_inv in Hfr as (b & xy & _ & _ & Hfr & _).
  assert (Hrange : m_value_range (f_measured fr) = (max_val * 2)%float).
  { apply Ok_float_inj. by rewrite <- Hvr. }
  assert (Hmin : m_min_value (f_measured fr) = (0 - max_val)%float).
  { apply Ok_float_inj. rewrite <- Hmv. cbn.
    by rewrite ExactProducts.mul_one_l. }
  split; [done |]. split_and!.
  - rewrite Hfr. cbn [f_mc_params]. rewrite Hmin.
    apply make_mc_params_lookup.
  - apply FloatFacts.zero_minus.
  - rewrite Hfr. cbn [f_mc_params]. rewrite Hm.
    apply make_mc_params_lookup.
Qed.

(** ** Runs of the two demo libraries *)

Lemma load_failure_is_passed_on_witness :
  make_confidence_report_spsa Faulty.lib "missing.joblib" 0 60000 0 10000
    128 "test" None 40 new_world
  = ({| trace := load_events "missing.joblib"; ticks := 0 |},
     Raise (OtherError "No such file or directory")).
Proof.
  exact (load_failure_is_passed_on Faulty.lib "missing.joblib" 0 60000
           0 10000 128 "test" None 40 new_world eq_refl _ eq_refl).
Defined.

Lemma model_without_parameters_is_rejected_witness :
  make_confidence_report_spsa Faulty.lib "empty.joblib" 0 60000 0 10000
    128 "test" None 40 new_world
  = ({| trace := load_events "empty.joblib"; ticks := 0 |},
     Raise AssertionError).
Proof.
  exact (model_without_parameters_is_rejected Faulty.lib "empty.joblib"
           0 60000 0 10000 128 "test" None 40 new_world eq_refl
           _ eq_refl eq_refl).
Defined.

Lemma construct_failure_is_passed_on_witness :
  ∃ factory,
    make_confidence_report_spsa Faulty.lib "corrupt.joblib" 0 60000
      0 10000 128 "test" None 40 new_world
    = ({| trace := measure_events "corrupt.joblib" factory; ticks := 0 |},
       Raise (OtherError "cannot read the data files")) ∧
    kwargs factory !! "test_end" = Some (VInt 10000).
Proof.
  eexists. split.
  - refine (construct_failure_is_passed_on Faulty.lib "corrupt.joblib"
              0 60000 0 10000 128 "test" None 40 new_world eq_refl
              _ eq_refl _ _ eq_refl).
    discriminate.
  - reflexivity.
Defined.

Lemma missing_metadata_is_a_key_error_witness :
  (∃ w',
     make_confidence_report_spsa Faulty.lib "no_center.joblib" 0 60000
       0 10000 128 "test" None 40 new_world
     = (w', Raise (KeyError "center"))) ∧
  (∃ w',
     make_confidence_report_spsa Faulty.lib "no_max_val.joblib" 0 60000
       0 10000 128 "test" None 40 new_world
     = (w', Raise (KeyError "max_val"))).
Proof.
  split; eexists.
  - refine (missing_metadata_is_a_key_error Faulty.lib "no_center.joblib"
              0 60000 0 10000 128 "test" None 40 new_world eq_refl
              _ eq_refl _ _ eq_refl (or_introl eq_refl)).
    discriminate.
  - refine (missing_metadata_is_a_key_error Faulty.lib "no_max_val.joblib"
              0 60000 0 10000 128 "test" None 40 new_world eq_refl
              _ eq_refl _ _ eq_refl (or_intror eq_refl)).
    discriminate.
Defined.

Lemma metadata_must_be_numbers_witness :
  ∃ w',
    make_confidence_report_spsa Faulty.lib "bad_center.joblib" 0 60000
      0 10000 128 "test" None 40 new_world
    = (w', Raise TypeError).
Proof.
  eexists.
  refine (metadata_must_be_numbers Faulty.lib "bad_center.joblib"
            0 60000 0 10000 128 "test" None 40 new_world eq_refl
            _ eq_refl _ _ eq_refl (VStr "yes") (VFloat 1) eq_refl eq_refl
            (or_introl eq_refl)).
  discriminate.
Defined.

Lemma get_set_failure_is_passed_on_witness :
  ∃ w',
    make_confidence_report_spsa Demo.lib "model.joblib" 0 60000 0 10000
      128 "validation" None 40 new_world
    = (w', Raise (OtherError "no such set")).
Proof.
  assert (H : match (load_and_measure Demo.lib "model.joblib" 0 60000
                       0 10000 None new_world).2 with
              | Ok ms =>
                  base_eps_of (cls (m_factory ms)) = Ok 0.3%float ∧
                  get_set (m_dataset ms) "validation"
                  = Raise (OtherError "no such set")
              | Raise _ => False
              end)
    by (vm_compute; split; reflexivity).
  destruct (load_and_measure Demo.lib "model.joblib" 0 60000 0 10000 None
              new_world) as [w1 [ms | e]] eqn:Hms; [| destruct H].
  destruct H as [Hbase Hget]. eexists.
  exact (get_set_failure_is_passed_on Demo.lib "model.joblib" 0 60000
           0 10000 128 "validation" None 40 new_world w1 ms _ _
           Hms Hbase Hget).
Defined.

Lemma clean_failure_stops_the_run_witness :
  ∃ w',
    make_confidence_report_spsa Faulty.lib "clean_fails.joblib" 0 60000
      0 10000 128 "test" None 40 new_world
    = (w', Raise (OtherError "out of memory")).
Proof.
  assert (H : match (setup Faulty.lib "clean_fails.joblib" 0 60000
                       0 10000 "test" None 40 new_world).2 with
              | Ok fr =>
                  correctness_and_confidence Faulty.lib
                    (m_sess (f_measured fr)) (m_model (f_measured fr))
                    (f_x_data fr) (f_y_data fr) 128 (devices Faulty.lib)
                    None None
                  = Raise (OtherError "out of memory")
              | Raise _ => False
              end)
    by (vm_compute; reflexivity).
  destruct (setup Faulty.lib "clean_fails.joblib" 0 60000 0 10000 "test"
              None 40 new_world) as [w1 [fr | e]] eqn:Hfr; [| destruct H].
  eexists.
  exact (clean_failure_stops_the_run Faulty.lib "clean_fails.joblib"
           0 60000 0 10000 128 "test" None 40 new_world w1 fr Hfr _ H).
Defined.

Lemma attack_failure_comes_after_the_clean_job_witness :
  ∃ w',
    make_confidence_report_spsa Faulty.lib "mc_fails.joblib" 0 60000
      0 10000 128 "test" None 40 new_world
    = (w', Raise (OtherError "out of memory")) ∧
    ∃ elapsed,
      EvPrintStats [true; true; true] [0.75%float; 0.75%float; 0.75%float]
        "clean" ∈ trace w' ∧
      EvPrintElapsed elapsed ∈ trace w'.
Proof.
  assert (H : match (setup Faulty.lib "mc_fails.joblib" 0 60000
                       0 10000 "test" None 40 new_world).2 with
              | Ok fr =>
                  let model := m_model (f_measured fr) in
                  let sess := m_sess (f_measured fr) in
                  correctness_and_confidence Faulty.lib sess model
                    (f_x_data fr) (f_y_data fr) 128 (devices Faulty.lib)
                    None None
                  = Ok ([true; true; true],
                        [0.75%float; 0.75%float; 0.75%float]) ∧
                  correctness_and_confidence Faulty.lib sess model
                    (f_x_data fr) (f_y_data fr) 128 (devices Faulty.lib)
                    (Some (MaxConfidence model sess (SPSA model sess)))
                    (Some (f_mc_params fr))
                  = Raise (OtherError "out of memory")
              | Raise _ => False
              end)
    by (vm_compute; split; reflexivity).
  destruct (setup Faulty.lib "mc_fails.joblib" 0 60000 0 10000 "test"
              None 40 new_world) as [w1 [fr | e]] eqn:Hfr; [| destruct H].
  destruct H as [Hclean Hmc]. eexists. split.
  - exact (attack_failure_comes_after_the_clean_job Faulty.lib
             "mc_fails.joblib" 0 60000 0 10000 128 "test" None 40
             new_world w1 fr Hfr _ _ _ Hclean Hmc).
  - eexists. cbn [trace job_events correctness confidence]. split.
    + apply elem_of_app. right. apply elem_of_app. left.
      do 2 apply list_elem_of_further. apply list_elem_of_here.
    + apply elem_of_app. right. apply elem_of_app. left.
      apply list_elem_of_further, list_elem_of_here.
Defined.

Lemma complete_run_witness :
  ∃ w',
    make_confidence_report_spsa Demo.lib "model.joblib" 0 60000 0 10000
      128 "test" None 40 new_world
    = (w', Raise (NameError "save")) ∧
    EvPrintStats [false; false; false] [0.5%float; 0.5%float; 0.5%float]
      "mc" ∈ trace w'.
Proof.
  assert (H : match (setup Demo.lib "model.joblib" 0 60000
                       0 10000 "test" None 40 new_world).2 with
              | Ok fr =>
                  let model := m_model (f_measured fr) in
                  let sess := m_sess (f_measured fr) in
                  correctness_and_confidence Demo.lib sess model
                    (f_x_data fr) (f_y_data fr) 128 (devices Demo.lib)
                    None None
                  = Ok ([true; true; true],
                        [0.75%float; 0.75%float; 0.75%float]) ∧
                  correctness_and_confidence Demo.lib sess model
                    (f_x_data fr) (f_y_data fr) 128 (devices Demo.lib)
                    (Some (MaxConfidence model sess (SPSA model sess)))
                    (Some (f_mc_params fr))
                  = Ok ([false; false; false],
                        [0.5%float; 0.5%float; 0.5%float])
              | Raise _ => False
              end)
    by (vm_compute; split; reflexivity).
  destruct (setup Demo.lib "model.joblib" 0 60000 0 10000 "test"
              None 40 new_world) as [w1 [fr | e]] eqn:Hfr; [| destruct H].
  destruct H as [Hclean Hmc]. eexists. split.
  - exact (proj1 (complete_run Demo.lib "model.joblib" 0 60000 0 10000 128
                    "test" None 40 new_world w1 fr Hfr
                    {| correctness := [true; true; true];
                       confidence := [0.75; 0.75; 0.75]%float |}
                    {| correctness := [false; false; false];
                       confidence := [0.5; 0.5; 0.5]%float |}
                    Hclean Hmc)).
  - cbn [trace job_events correctness confidence].
    apply elem_of_app. right. apply elem_of_app. right.
    do 2 apply list_elem_of_further. apply list_elem_of_here.
Defined.

Lemma attack_parameters_have_four_keys_witness :
  ∃ w1 fr,
    setup Demo.lib "cifar.joblib" 0 60000 0 10000 "test" None 7 new_world
    = (w1, Ok fr) ∧
    size (f_mc_params fr) = 4%nat ∧
    f_mc_params fr !! "nb_iter" = Some (VInt 7).
Proof.
  destruct (setup Demo.lib "cifar.joblib" 0 60000 0 10000 "test" None 7
              new_world) as [w1 [fr | e]] eqn:Hfr;
    [| vm_compute in Hfr; discriminate].
  exists w1, fr. split; [reflexivity |].
  destruct (attack_parameters_have_four_keys _ _ _ _ _ _ _ _ _ _ _ _ Hfr)
    as [Hdom Hnb].
  split; [| exact Hnb].
  rewrite <- size_dom, Hdom. reflexivity.
Defined.

Lemma report_path_is_never_used_witness :
  make_confidence_report_spsa Demo.lib "model.joblib" 0 60000 0 10000 128
    "test" None 40 new_world
  = make_confidence_report_spsa Demo.lib "model.joblib" 0 60000 0 10000 128
      "test" (Some "elsewhere/report.joblib") 40 new_world.
Proof.
  exact (report_path_is_never_used Demo.lib "model.joblib" 0 60000 0 10000
           128 "test" None (Some "elsewhere/report.joblib") 40 new_world
           eq_refl eq_refl).
Defined.

Lemma uncentered_data_is_clipped_at_zero_witness :
  ∃ w2 fr,
    setup Demo.lib "model.joblib" 0 60000 0 10000 "test" None 40 new_world
    = (w2, Ok fr) ∧
    f_mc_params fr !! "clip_min" = Some (VFloat 0%float) ∧
    f_mc_params fr !! "clip_max" = Some (VFloat 1%float).
Proof.
  assert (H : match (setup Demo.lib "model.joblib" 0 60000
                       0 10000 "test" None 40 new_world).2 with
              | Ok fr =>
                  m_center (f_measured fr) = VBool false ∧
                  m_max_val (f_measured fr) = VFloat 1%float
              | Raise _ => False
              end)
    by (vm_compute; split; reflexivity).
  destruct (setup Demo.lib "model.joblib" 0 60000 0 10000 "test" None 40
              new_world) as [w2 [fr | e]] eqn:Hfr; [| destruct H].
  destruct H as [Hc Hm]. exists w2, fr. split; [reflexivity |].
  destruct (uncentered_data_is_clipped_at_zero _ _ _ _ _ _ _ _ _ _ _ _
              1%float Hfr Hc Hm eq_refl)
    as (_ & _ & Hlo & Hhi).
  split; [exact Hlo | exact Hhi].
Defined.

Lemma centered_data_is_clipped_symmetrically_witness :
  ∃ w2 fr,
    setup Demo.lib "cifar.joblib" 0 60000 0 10000 "test" None 40 new_world
    = (w2, Ok fr) ∧
    m_value_range (f_measured fr) = (1 * 2)%float ∧
    f_mc_params fr !! "clip_min" = Some (VFloat (0 - 1)%float) ∧
    f_mc_params fr !! "clip_max" = Some (VFloat 1%float).
Proof.
  assert (H : match (setup Demo.lib "cifar.joblib" 0 60000
                       0 10000 "test" None 40 new_world).2 with
              | Ok fr =>
                  m_center (f_measured fr) = VBool true ∧
                  m_max_val (f_measured fr) = VFloat 1%float
              | Raise _ => False
              end)
    by (vm_compute; split; reflexivity).
  destruct (setup Demo.lib "cifar.joblib" 0 60000 0 10000 "test" None 40
              new_world) as [w2 [fr | e]] eqn:Hfr; [| destruct H].
  destruct H as [Hc Hm]. exists w2, fr. split; [reflexivity |].
  destruct (centered_data_is_clipped_symmetrically _ _ _ _ _ _ _ _ _ _ _ _
              1%float Hfr Hc Hm)
    as (Hrange & Hlo & _ & Hhi).
  split; [exact Hrange |]. split; [exact Hlo | exact Hhi].
Defined.
